(** * Slack MCP server: the API client, the word-frequency analyzer and the
      tool layer, embedded from [slack_api.py] and [slack-mcp_server.py].

    Python values are modelled as the interpreter has them: a [str] is a
    sequence of Unicode code points, an [int] is unbounded ([Z]), a [float] is
    an IEEE-754 binary64 value ([spec_float] at precision 53), a JSON
    document is a tree of [None]/[bool]/[int]/[float]/[str]/[list]/[dict]
    values, and a raised exception is the left summand of a result.  The
    HTTP transport is an oracle threaded through a state monad that also
    records every request handed to it. *)

From Stdlib Require Import List ZArith NArith Bool Ascii String Lia.
From Stdlib Require Import Floats.SpecFloat.
From Stdlib Require Import Permutation Sorted.
Import ListNotations.

Local Open Scope Z_scope.

Set Warnings "-register-all".

(* ================================================================== *)
(** ** Python strings: sequences of code points *)
(* ================================================================== *)

Module PyStr.

(** A code point. *)
Definition char := N.

(** A Python [str]. *)
Definition pystr := list char.

Definition bytes_of_string (s : string) : list N :=
  map N_of_ascii (list_ascii_of_string s).

(** UTF-8 decoding of a source literal.  [pending] continuation bytes are
    still expected for the code point accumulated in [acc]. *)
Fixpoint utf8_decode_from (pending : nat) (acc : N) (bs : list N) : pystr :=
  match bs with
  | [] => []
  | b :: rest =>
      match pending with
      | O =>
          if (b <? 128)%N then b :: utf8_decode_from 0 0%N rest
          else if (b <? 224)%N then utf8_decode_from 1 (N.land b 31) rest
          else if (b <? 240)%N then utf8_decode_from 2 (N.land b 15) rest
          else utf8_decode_from 3 (N.land b 7) rest
      | S O =>
          (N.shiftl acc 6 + N.land b 63)%N :: utf8_decode_from 0 0%N rest
      | S n =>
          utf8_decode_from n (N.shiftl acc 6 + N.land b 63)%N rest
      end
  end.

(** The [str] written by a literal of the source file. *)
Definition u (s : string) : pystr := utf8_decode_from 0 0%N (bytes_of_string s).

(** The single code point of a one-character literal. *)
Definition cp (s : string) : char := hd 0%N (u s).

Fixpoint eqb (a b : pystr) : bool :=
  match a, b with
  | [], [] => true
  | x :: a', y :: b' => (x =? y)%N && eqb a' b'
  | _, _ => false
  end.

(** [len(s)] *)
Definition len (s : pystr) : Z := Z.of_nat (List.length s).

Fixpoint starts_with (p s : pystr) : bool :=
  match p, s with
  | [], _ => true
  | x :: p', y :: s' => (x =? y)%N && starts_with p' s'
  | _ :: _, [] => false
  end.

(** [p in s] for two strings: substring test. *)
Fixpoint contains (p s : pystr) : bool :=
  starts_with p s ||
  match s with
  | [] => false
  | _ :: s' => contains p s'
  end.

Definition is_ascii (c : char) : bool := (c <? 128)%N.

Definition between (lo hi c : char) : bool := (lo <=? c)%N && (c <=? hi)%N.

(** [str.isalnum] on the ASCII range. *)
Definition ascii_isalnum (c : char) : bool :=
  between (cp "0") (cp "9") c || between (cp "A") (cp "Z") c
  || between (cp "a") (cp "z") c.

(** [str.isspace] on the ASCII range: TAB, LF, VT, FF, CR, FS, GS, RS, US
    and the space. *)
Definition ascii_isspace (c : char) : bool :=
  between 9%N 13%N c || between 28%N 31%N c || (c =? 32)%N.

(** [str.lower] on the ASCII range. *)
Definition ascii_lower (c : char) : char :=
  if between (cp "A") (cp "Z") c then (c + 32)%N else c.

(** The part of the interpreter's Unicode tables that lies outside ASCII
    and is not written in the program.  [ucd_lower] is a function of the
    whole string because full lower-casing is context sensitive and may
    change the length. *)
Record unicode_db := {
  ucd_isalnum : char -> bool;
  ucd_isspace : char -> bool;
  ucd_lower : pystr -> pystr
}.

Section Unicode.
Variable ucd : unicode_db.

Definition isalnum (c : char) : bool :=
  if is_ascii c then ascii_isalnum c else ucd_isalnum ucd c.

(** Both [\s] of a [str] pattern and [str.split()] use this test. *)
Definition isspace (c : char) : bool :=
  if is_ascii c then ascii_isspace c else ucd_isspace ucd c.

(** [\w] of a [str] pattern: alphanumeric or the underscore. *)
Definition re_word (c : char) : bool :=
  isalnum c || (c =? cp "_")%N.

(** [str.lower()]: the interpreter lower-cases an all-ASCII string
    character by character and consults the Unicode tables otherwise. *)
Definition lower (s : pystr) : pystr :=
  if forallb is_ascii s then map ascii_lower s else ucd_lower ucd s.

(** [re.sub(r'\s+', ' ', text)]: every maximal run of whitespace becomes
    one space.  [in_run] tells that the previous character was
    whitespace, so that the run has already produced its space. *)
Fixpoint collapse_from (in_run : bool) (s : pystr) : pystr :=
  match s with
  | [] => []
  | c :: rest =>
      if isspace c
      then if in_run then collapse_from true rest
           else cp " " :: collapse_from true rest
      else c :: collapse_from false rest
  end.

Definition collapse_whitespace (s : pystr) : pystr := collapse_from false s.

(** [str.split()]: the maximal runs of non-whitespace, in order.  [cur]
    is the word being read, reversed. *)
Fixpoint split_from (cur : pystr) (s : pystr) : list pystr :=
  match s with
  | [] => match cur with [] => [] | _ => [rev cur] end
  | c :: rest =>
      if isspace c
      then match cur with
           | [] => split_from [] rest
           | _ => rev cur :: split_from [] rest
           end
      else split_from (c :: cur) rest
  end.

Definition split (s : pystr) : list pystr := split_from [] s.

End Unicode.

End PyStr.

Import PyStr.

(* ================================================================== *)
(** ** Python values, exceptions and results *)
(* ================================================================== *)

(** A value decoded from JSON or built by the program. *)
Inductive pyval :=
| PNone
| PBool (b : bool)
| PInt (z : Z)
| PFloat (f : spec_float)
| PStr (s : pystr)
| PList (l : list pyval)
| PDict (d : list (pystr * pyval)).

(** The exception classes the program raises or tests for.  Every one of
    them derives from [Exception]. *)
Inductive exc_class :=
| ExceptionC                 (* raise Exception(...) *)
| RequestExceptionC          (* requests.exceptions.RequestException and subclasses *)
| RequestsJSONDecodeErrorC   (* requests' decode error: a RequestException and a json.JSONDecodeError *)
| JSONDecodeErrorC           (* json.JSONDecodeError *)
| AttributeErrorC
| TypeErrorC
| KeyErrorC
| ZeroDivisionErrorC
| OverflowErrorC.

(** A raised exception: its class and [str(e)]. *)
Record pyexc := { exc_cls : exc_class; exc_str : pystr }.

Definition is_RequestException (e : pyexc) : bool :=
  match exc_cls e with
  | RequestExceptionC | RequestsJSONDecodeErrorC => true
  | _ => false
  end.

Definition is_JSONDecodeError (e : pyexc) : bool :=
  match exc_cls e with
  | RequestsJSONDecodeErrorC | JSONDecodeErrorC => true
  | _ => false
  end.

(** The outcome of an expression that may raise. *)
Definition exc (A : Type) : Type := (pyexc + A)%type.

Definition eret {A} (a : A) : exc A := inr a.
Definition eraise {A} (c : exc_class) (msg : pystr) : exc A :=
  inl {| exc_cls := c; exc_str := msg |}.
Definition ebind {A B} (m : exc A) (k : A -> exc B) : exc B :=
  match m with
  | inl e => inl e
  | inr a => k a
  end.

Declare Scope exc_scope.
Delimit Scope exc_scope with exc.
Notation "x <~ m ;; k" := (ebind m (fun x => k))
  (at level 61, m at next level, right associativity) : exc_scope.

Fixpoint emap {A B} (f : A -> exc B) (l : list A) : exc (list B) :=
  match l with
  | [] => eret []
  | a :: rest =>
      match f a with
      | inl e => inl e
      | inr b => match emap f rest with
                 | inl e => inl e
                 | inr bs => inr (b :: bs)
                 end
      end
  end.

Module Py.

Definition type_name (v : pyval) : pystr :=
  match v with
  | PNone => u "NoneType"
  | PBool _ => u "bool"
  | PInt _ => u "int"
  | PFloat _ => u "float"
  | PStr _ => u "str"
  | PList _ => u "list"
  | PDict _ => u "dict"
  end.

(** Truth value of an object, as [not v] and [if v] test it. *)
Definition truthy (v : pyval) : bool :=
  match v with
  | PNone => false
  | PBool b => b
  | PInt z => negb (z =? 0)
  | PFloat (S754_zero _) => false
  | PFloat _ => true
  | PStr s => match s with [] => false | _ => true end
  | PList l => match l with [] => false | _ => true end
  | PDict d => match d with [] => false | _ => true end
  end.

(** [v == s] for a string [s]: only an equal string compares equal. *)
Definition eq_str (v : pyval) (s : pystr) : bool :=
  match v with
  | PStr t => PyStr.eqb t s
  | _ => false
  end.

(** Lookup in a dict, kept in insertion order. *)
Fixpoint dict_get (d : list (pystr * pyval)) (k : pystr) : option pyval :=
  match d with
  | [] => None
  | (k', v) :: rest => if PyStr.eqb k' k then Some v else dict_get rest k
  end.

Definition dict_has (d : list (pystr * pyval)) (k : pystr) : bool :=
  match dict_get d k with Some _ => true | None => false end.

Definition no_attribute {A} (v : pyval) (attr : string) : exc A :=
  eraise AttributeErrorC
    (u "'" ++ type_name v ++ u "' object has no attribute '" ++ u attr ++ u "'").

(** [v.get(k, default)] *)
Definition get (v : pyval) (k : pystr) (default : pyval) : exc pyval :=
  match v with
  | PDict d => eret (match dict_get d k with Some x => x | None => default end)
  | _ => no_attribute v "get"
  end.

(** [v[k]] for a string key [k]. *)
Definition getitem (v : pyval) (k : pystr) : exc pyval :=
  match v with
  | PDict d =>
      match dict_get d k with
      | Some x => eret x
      | None => eraise KeyErrorC (u "'" ++ k ++ u "'")
      end
  | PList _ => eraise TypeErrorC (u "list indices must be integers or slices, not str")
  | PStr _ => eraise TypeErrorC (u "string indices must be integers, not 'str'")
  | _ => eraise TypeErrorC (u "'" ++ type_name v ++ u "' object is not subscriptable")
  end.

(** The items a [for] loop over [v] visits. *)
Definition iter (v : pyval) : exc (list pyval) :=
  match v with
  | PList l => eret l
  | PDict d => eret (map (fun kv => PStr (fst kv)) d)
  | PStr s => eret (map (fun c => PStr [c]) s)
  | _ => eraise TypeErrorC (u "'" ++ type_name v ++ u "' object is not iterable")
  end.

(** [k in v] for a string [k]. *)
Definition contains (k : pystr) (v : pyval) : exc bool :=
  match v with
  | PDict d => eret (dict_has d k)
  | PList l => eret (existsb (fun x => eq_str x k) l)
  | PStr s => eret (PyStr.contains k s)
  | _ => eraise TypeErrorC
           (u "argument of type '" ++ type_name v ++ u "' is not iterable")
  end.

(** [l[:n]] *)
Definition slice_to {A} (l : list A) (n : Z) : list A :=
  if n <? 0
  then firstn (Z.to_nat (Z.of_nat (List.length l) + n)) l
  else firstn (Z.to_nat n) l.

End Py.

(* ================================================================== *)
(** ** Python floats: IEEE-754 binary64 *)
(* ================================================================== *)

Module PyFloat.

Definition prec : Z := 53.
Definition emax : Z := 1024.

(** An integer as an exact, not yet rounded, binary value. *)
Definition exact_of_int (z : Z) : spec_float :=
  match z with
  | Z0 => S754_zero false
  | Zpos p => S754_finite false p 0
  | Zneg p => S754_finite true p 0
  end.

(** [float(z)] for an integer within range. *)
Definition of_int (z : Z) : spec_float := binary_normalize prec emax z 0 false.

(** [a / b] on integers: the quotient, correctly rounded once. *)
Definition int_truediv (a b : Z) : exc spec_float :=
  if b =? 0 then eraise ZeroDivisionErrorC (u "division by zero")
  else if a =? 0 then eret (S754_zero (b <? 0))
  else match SFdiv prec emax (exact_of_int a) (exact_of_int b) with
       | S754_infinity _ =>
           eraise OverflowErrorC (u "integer division result too large for a float")
       | q => eret q
       end.

Definition mul (x y : spec_float) : spec_float := SFmul prec emax x y.
Definition add (x y : spec_float) : spec_float := SFadd prec emax x y.

(** The integer nearest to [m * 2^e], ties to even. *)
Definition nearest_even_scaled (m e : Z) : Z :=
  if 0 <=? e then m * 2 ^ e
  else
    let d := 2 ^ (- e) in
    let q := m / d in
    let r := m mod d in
    match 2 * r ?= d with
    | Lt => q
    | Gt => q + 1
    | Eq => if Z.even q then q else q + 1
    end.

(** [round(x, ndigits)] for [0 <= ndigits]: the exact value of [x] is
    rounded half-to-even to [ndigits] decimals, and that decimal is
    converted to the nearest float. *)
Definition round (x : spec_float) (ndigits : N) : exc spec_float :=
  match x with
  | S754_finite s m e =>
      let scale := 10 ^ Z.of_N ndigits in
      let n := nearest_even_scaled (Zpos m * scale) e in
      if n =? 0 then eret (S754_zero s)
      else match SFdiv prec emax (exact_of_int (if s then - n else n))
                                  (exact_of_int scale) with
           | S754_infinity _ =>
               eraise OverflowErrorC (u "rounded value too large to represent")
           | r => eret r
           end
  | _ => eret x
  end.

End PyFloat.

(* ================================================================== *)
(** ** The interpreter and the network *)
(* ================================================================== *)

(** What the interpreter supplies and the program text does not contain:
    the Unicode tables and [str(v)] of a value that is not a string. *)
Record runtime := {
  rt_ucd : unicode_db;
  rt_str : pyval -> pystr
}.

(** [f"{v}"] *)
Definition format_value (rt : runtime) (v : pyval) : pystr :=
  match v with
  | PStr s => s
  | _ => rt_str rt v
  end.

Inductive http_verb := HttpGet | HttpPost.

(** One call of [requests.get(url, headers=..., params=data)] or
    [requests.post(url, headers=..., json=data)]. *)
Record request := {
  req_verb : http_verb;
  req_url : pystr;
  req_headers : list (pystr * pystr);
  req_data : option (list (pystr * pyval))
}.

(** [SlackAPIClient]: the attributes set by [__init__]. *)
Record SlackAPIClient := {
  bot_token : pystr;
  base_url : pystr;
  headers : list (pystr * pystr)
}.

Definition SlackAPIClient_init (token : pystr) : SlackAPIClient :=
  {| bot_token := token;
     base_url := u "https://slack.com/api";
     headers := [ (u "Authorization", u "Bearer " ++ token);
                  (u "Content-Type", u "application/json; charset=utf-8") ] |}.

(** The stop-word set of [_extract_words_from_text]. *)
Definition stop_words : list pystr :=
  map u
    [ "의"; "가"; "이"; "은"; "는"; "을"; "를"; "에"; "에서"; "으로"; "로";
      "과"; "와"; "한"; "하는"; "하고"; "해서"; "하여"; "하면"; "됩니다";
      "있습니다"; "입니다"; "그"; "그런"; "이런"; "저런"; "것"; "수"; "등";
      "the"; "a"; "an"; "and"; "or"; "but"; "in"; "on"; "at"; "to";
      "for"; "of"; "with"; "by"; "is"; "are"; "was"; "were"; "be";
      "been"; "have"; "has"; "had"; "do"; "does"; "did"; "will";
      "would"; "could"; "should"; "may"; "might"; "can"; "this";
      "that"; "these"; "those"; "i"; "you"; "he"; "she"; "it";
      "we"; "they"; "me"; "him"; "her"; "us"; "them" ]%string.

Definition is_stop_word (word : pystr) : bool :=
  existsb (PyStr.eqb word) stop_words.

(** The test of the list comprehension:
    [len(word) >= 2 and word not in stop_words]. *)
Definition keep_word (word : pystr) : bool :=
  (2 <=? PyStr.len word) && negb (is_stop_word word).

(** [Counter]: counts in order of first insertion. *)
Fixpoint counter_incr (c : list (pystr * Z)) (w : pystr) : list (pystr * Z) :=
  match c with
  | [] => [(w, 1)]
  | (k, n) :: rest =>
      if PyStr.eqb k w then (k, n + 1) :: rest
      else (k, n) :: counter_incr rest w
  end.

Definition Counter (words : list pystr) : list (pystr * Z) :=
  fold_left counter_incr words [].

(** [x] precedes every item of [sorted] in the original order, so it is
    placed before the first item whose count is not greater. *)
Fixpoint insert_by_count (x : pystr * Z) (sorted : list (pystr * Z))
  : list (pystr * Z) :=
  match sorted with
  | [] => [x]
  | y :: rest =>
      if snd x <? snd y then y :: insert_by_count x rest
      else x :: y :: rest
  end.

(** [Counter.most_common()]: [sorted(items, key=count, reverse=True)], a
    stable sort, so equal counts keep their insertion order. *)
Definition most_common (c : list (pystr * Z)) : list (pystr * Z) :=
  fold_right insert_by_count [] c.

(** [sum(count for _, count in word_frequency)] *)
Definition sum_counts (word_frequency : list (pystr * Z)) : Z :=
  fold_left (fun acc wc => acc + snd wc) word_frequency 0.

Definition py_len {A} (l : list A) : pyval := PInt (Z.of_nat (List.length l)).

Section Program.

Variable rt : runtime.

(** The network: the outcome of sending one request, checking its status
    ([raise_for_status]) and decoding its body ([response.json()]), which
    is either the exception one of these raised or the decoded body. *)
Context {world : Type}.
Variable http : request -> world -> exc pyval * world.

(** The state threaded through the program: the network, and the requests
    handed to it so far. *)
Record net := { net_world : world; net_sent : list request }.

Definition M (A : Type) : Type := net -> exc A * net.

Definition ret {A} (a : A) : M A := fun s => (inr a, s).
Definition raise {A} (e : pyexc) : M A := fun s => (inl e, s).
Definition lift {A} (r : exc A) : M A := fun s => (r, s).
Definition bind {A B} (m : M A) (k : A -> M B) : M B :=
  fun s => match m s with
           | (inl e, s') => (inl e, s')
           | (inr a, s') => k a s'
           end.
(** [try: body  except ... as e: handler e] *)
Definition try_except {A} (body : M A) (handler : pyexc -> M A) : M A :=
  fun s => match body s with
           | (inl e, s') => handler e s'
           | (inr a, s') => (inr a, s')
           end.

Notation "x <- m ;; k" := (bind m (fun x => k))
  (at level 61, m at next level, right associativity).

Definition send_request (req : request) : M pyval :=
  fun s =>
    let (r, w') := http req (net_world s) in
    (r, {| net_world := w'; net_sent := net_sent s ++ [req] |}).

(* ---------------------------------------------------------------- *)
(** *** slack_api.py *)

Definition _make_request (self : SlackAPIClient) (endpoint method : pystr)
    (data : option (list (pystr * pyval))) : M pyval :=
  let url := base_url self ++ u "/" ++ endpoint in
  try_except
    (result <- send_request
                 {| req_verb := if PyStr.eqb method (u "GET")
                                then HttpGet else HttpPost;
                    req_url := url;
                    req_headers := headers self;
                    req_data := data |} ;;
     ok <- lift (Py.get result (u "ok") (PBool false)) ;;
     if negb (Py.truthy ok)
     then error_msg <- lift (Py.get result (u "error")
                                    (PStr (u "Unknown error"))) ;;
          raise {| exc_cls := ExceptionC;
                   exc_str := u "Slack API 오류: "
                              ++ format_value rt error_msg |}
     else ret result)
    (fun e =>
       if is_RequestException e
       then raise {| exc_cls := ExceptionC;
                     exc_str := u "HTTP 요청 실패: " ++ exc_str e |}
       else if is_JSONDecodeError e
       then raise {| exc_cls := ExceptionC;
                     exc_str := u "JSON 파싱 실패: " ++ exc_str e |}
       else raise e).

Definition send_message (self : SlackAPIClient) (channel : pyval)
    (text : pystr) : M pyval :=
  let data := [ (u "channel", channel); (u "text", PStr text) ] in
  _make_request self (u "chat.postMessage") (u "POST") (Some data).

Definition get_channels (self : SlackAPIClient) : M pyval :=
  let data := [ (u "types", PStr (u "public_channel,private_channel"));
                (u "exclude_archived", PBool true) ] in
  result <- _make_request self (u "conversations.list") (u "GET") (Some data) ;;
  lift (Py.get result (u "channels") (PList [])).

Definition get_channel_history (self : SlackAPIClient) (channel_id : pystr)
    (limit : Z) : M pyval :=
  let limit := if limit >? 100 then 100 else limit in
  let data := [ (u "channel", PStr channel_id); (u "limit", PInt limit) ] in
  result <- _make_request self (u "conversations.history") (u "GET") (Some data) ;;
  lift (Py.get result (u "messages") (PList [])).

Definition open_dm_channel (self : SlackAPIClient) (user_id : pystr)
  : M pyval :=
  let data := [ (u "users", PStr user_id) ] in
  result <- _make_request self (u "conversations.open") (u "POST") (Some data) ;;
  lift (channel <~ Py.getitem result (u "channel") ;;
        Py.getitem channel (u "id"))%exc.

Definition send_direct_message (self : SlackAPIClient) (user_id : pystr)
    (text : pystr) : M pyval :=
  dm_channel_id <- open_dm_channel self user_id ;;
  send_message self dm_channel_id text.

Definition get_users (self : SlackAPIClient) : M pyval :=
  result <- _make_request self (u "users.list") (u "GET") None ;;
  lift (Py.get result (u "members") (PList [])).

(** The class [[^\w\s가-힣]] matches the characters for which this test
    fails. *)
Definition kept_by_pattern (c : char) : bool :=
  re_word (rt_ucd rt) c || isspace (rt_ucd rt) c
  || between (cp "가") (cp "힣") c.

Definition _extract_words_from_text (text : pyval) : exc (list pystr) :=
  if negb (Py.truthy text) then eret []
  else
    match text with
    | PStr text =>
        let text := map (fun c => if kept_by_pattern c then c else cp " ") text in
        let text := collapse_whitespace (rt_ucd rt) text in
        let words := split (rt_ucd rt) (lower (rt_ucd rt) text) in
        let filtered_words := filter keep_word words in
        eret filtered_words
    | _ =>
        eraise TypeErrorC
          (u "expected string or bytes-like object, got '"
           ++ Py.type_name text ++ u "'")
    end.

(** The words one message of the loop adds to [all_words]. *)
Definition message_words (message : pyval) : exc (list pystr) :=
  (has_text <~ Py.contains (u "text") message ;;
   if negb has_text then eret []
   else
     type <~ Py.get message (u "type") PNone ;;
     if negb (Py.eq_str type (u "message")) then eret []
     else
       bot_id <~ Py.get message (u "bot_id") PNone ;;
       if Py.truthy bot_id then eret []
       else
         subtype <~ Py.get message (u "subtype") PNone ;;
         if Py.truthy subtype then eret []
         else
           text <~ Py.getitem message (u "text") ;;
           _extract_words_from_text text)%exc.

(** The [for message in messages] loop, from the given [all_words]. *)
Fixpoint collect_words (messages : list pyval) (all_words : list pystr)
  : exc (list pystr) :=
  match messages with
  | [] => eret all_words
  | message :: rest =>
      (words <~ message_words message ;;
       collect_words rest (all_words ++ words))%exc
  end.

(** [analyze_channel_word_frequency] after the history has been fetched. *)
Definition word_frequency_of (messages : pyval) : exc (list (pystr * Z)) :=
  (items <~ Py.iter messages ;;
   all_words <~ collect_words items [] ;;
   let word_counter := Counter all_words in
   eret (most_common word_counter))%exc.

Definition analyze_channel_word_frequency (self : SlackAPIClient)
    (channel_id : pystr) (limit : Z) : M (list (pystr * Z)) :=
  let limit := if limit >? 1000 then 1000 else limit in
  messages <- get_channel_history self channel_id (Z.min limit 100) ;;
  lift (word_frequency_of messages).

(** The ['percentage'] of one entry. *)
Definition percentage (count total_words : Z) : exc pyval :=
  if total_words >? 0
  then (ratio <~ PyFloat.int_truediv count total_words ;;
        rounded <~ PyFloat.round (PyFloat.mul ratio (PyFloat.of_int 100)) 2 ;;
        eret (PFloat rounded))%exc
  else eret (PInt 0).

Definition top_word_entry (total_words : Z) (wc : pystr * Z) : exc pyval :=
  let (word, count) := wc in
  (pct <~ percentage count total_words ;;
   eret (PDict [ (u "word", PStr word);
                 (u "count", PInt count);
                 (u "percentage", pct) ]))%exc.

(** The body of the [try] of [get_top_words_in_channel] after the
    analysis has returned. *)
Definition top_words_report (channel_id : pystr) (top_n message_limit : Z)
    (word_frequency : list (pystr * Z)) : exc pyval :=
  let top_words := Py.slice_to word_frequency top_n in
  let total_words := sum_counts word_frequency in
  let unique_words := py_len word_frequency in
  (entries <~ emap (top_word_entry total_words) top_words ;;
   eret (PDict
     [ (u "success", PBool true);
       (u "channel_id", PStr channel_id);
       (u "analysis_stats",
         PDict [ (u "total_words_analyzed", PInt total_words);
                 (u "unique_words", unique_words);
                 (u "message_limit", PInt message_limit) ]);
       (u "top_words", PList entries) ]))%exc.

Definition get_top_words_in_channel (self : SlackAPIClient)
    (channel_id : pystr) (top_n message_limit : Z) : M pyval :=
  try_except
    (word_frequency <- analyze_channel_word_frequency self channel_id
                         message_limit ;;
     lift (top_words_report channel_id top_n message_limit word_frequency))
    (fun e =>
       ret (PDict [ (u "success", PBool false);
                    (u "error", PStr (u "단어 분석 실패: " ++ exc_str e));
                    (u "channel_id", PStr channel_id) ])).

(* ---------------------------------------------------------------- *)
(** *** slack-mcp_server.py *)

(** The value of [SLACK_BOT_TOKEN]; the module refuses to load without
    it. *)
Variable slack_token : pystr.

Definition slack_client : SlackAPIClient := SlackAPIClient_init slack_token.

(** The dictionary every [except Exception as e] branch returns. *)
Definition failure_result (prefix : string) (e : pyexc) : pyval :=
  PDict [ (u "success", PBool false);
          (u "error", PStr (u prefix ++ exc_str e)) ].

Definition send_slack_message (channel text : pystr) : M pyval :=
  try_except
    (result <- send_message slack_client (PStr channel) text ;;
     lift (channel' <~ Py.get result (u "channel") PNone ;;
           ts <~ Py.get result (u "ts") PNone ;;
           eret (PDict
             [ (u "success", PBool true);
               (u "message", PStr (u "메시지가 성공적으로 전송되었습니다."));
               (u "channel", channel');
               (u "timestamp", ts);
               (u "text", PStr text) ]))%exc)
    (fun e => ret (failure_result "메시지 전송 실패: " e)).

Definition channel_info (channel : pyval) : exc pyval :=
  (id <~ Py.get channel (u "id") PNone ;;
   name <~ Py.get channel (u "name") PNone ;;
   is_private <~ Py.get channel (u "is_private") (PBool false) ;;
   is_member <~ Py.get channel (u "is_member") (PBool false) ;;
   topic <~ Py.get channel (u "topic") (PDict []) ;;
   topic_value <~ Py.get topic (u "value") (PStr []) ;;
   purpose <~ Py.get channel (u "purpose") (PDict []) ;;
   purpose_value <~ Py.get purpose (u "value") (PStr []) ;;
   num_members <~ Py.get channel (u "num_members") (PInt 0) ;;
   eret (PDict [ (u "id", id);
                 (u "name", name);
                 (u "is_private", is_private);
                 (u "is_member", is_member);
                 (u "topic", topic_value);
                 (u "purpose", purpose_value);
                 (u "num_members", num_members) ]))%exc.

Definition get_slack_channels : M pyval :=
  try_except
    (channels <- get_channels slack_client ;;
     lift (items <~ Py.iter channels ;;
           channel_list <~ emap channel_info items ;;
           eret (PDict [ (u "success", PBool true);
                         (u "channels", PList channel_list);
                         (u "total_count", py_len channel_list) ]))%exc)
    (fun e => ret (failure_result "채널 목록 조회 실패: " e)).

Definition message_info (message : pyval) : exc pyval :=
  (text <~ Py.get message (u "text") (PStr []) ;;
   user <~ Py.get message (u "user") (PStr []) ;;
   ts <~ Py.get message (u "ts") (PStr []) ;;
   type <~ Py.get message (u "type") (PStr []) ;;
   subtype <~ Py.get message (u "subtype") (PStr []) ;;
   eret (PDict [ (u "text", text);
                 (u "user", user);
                 (u "timestamp", ts);
                 (u "type", type);
                 (u "subtype", subtype) ]))%exc.

Definition get_slack_channel_history (channel_id : pystr) (limit : Z)
  : M pyval :=
  try_except
    (messages <- get_channel_history slack_client channel_id limit ;;
     lift (items <~ Py.iter messages ;;
           message_list <~ emap message_info items ;;
           eret (PDict [ (u "success", PBool true);
                         (u "messages", PList message_list);
                         (u "channel_id", PStr channel_id);
                         (u "message_count", py_len message_list) ]))%exc)
    (fun e => ret (failure_result "메시지 히스토리 조회 실패: " e)).

Definition send_slack_direct_message (user_id text : pystr) : M pyval :=
  try_except
    (result <- send_direct_message slack_client user_id text ;;
     lift (ts <~ Py.get result (u "ts") PNone ;;
           eret (PDict
             [ (u "success", PBool true);
               (u "message",
                 PStr (u "다이렉트 메시지가 성공적으로 전송되었습니다."));
               (u "user_id", PStr user_id);
               (u "timestamp", ts);
               (u "text", PStr text) ]))%exc)
    (fun e => ret (failure_result "다이렉트 메시지 전송 실패: " e)).

Definition user_info (user : pyval) : exc pyval :=
  (id <~ Py.get user (u "id") PNone ;;
   name <~ Py.get user (u "name") PNone ;;
   real_name <~ Py.get user (u "real_name") (PStr []) ;;
   profile <~ Py.get user (u "profile") (PDict []) ;;
   display_name <~ Py.get profile (u "display_name") (PStr []) ;;
   profile' <~ Py.get user (u "profile") (PDict []) ;;
   email <~ Py.get profile' (u "email") (PStr []) ;;
   is_bot <~ Py.get user (u "is_bot") (PBool false) ;;
   is_admin <~ Py.get user (u "is_admin") (PBool false) ;;
   eret (PDict [ (u "id", id);
                 (u "name", name);
                 (u "real_name", real_name);
                 (u "display_name", display_name);
                 (u "email", email);
                 (u "is_bot", is_bot);
                 (u "is_admin", is_admin) ]))%exc.

(** The [for user in users] loop, from the given [user_list]. *)
Fixpoint collect_users (users : list pyval) (user_list : list pyval)
  : exc (list pyval) :=
  match users with
  | [] => eret user_list
  | user :: rest =>
      (deleted <~ Py.get user (u "deleted") (PBool false) ;;
       if negb (Py.truthy deleted)
       then info <~ user_info user ;;
            collect_users rest (user_list ++ [info])
       else collect_users rest user_list)%exc
  end.

Definition get_slack_users : M pyval :=
  try_except
    (users <- get_users slack_client ;;
     lift (items <~ Py.iter users ;;
           user_list <~ collect_users items [] ;;
           eret (PDict [ (u "success", PBool true);
                         (u "users", PList user_list);
                         (u "total_count", py_len user_list) ]))%exc)
    (fun e => ret (failure_result "사용자 목록 조회 실패: " e)).

(** One invocation of a tool by the host. *)
Inductive tool_call :=
| Call_send_slack_message (channel text : pystr)
| Call_get_slack_channels
| Call_get_slack_channel_history (channel_id : pystr) (limit : Z)
| Call_send_slack_direct_message (user_id text : pystr)
| Call_get_slack_users.

Definition invoke (c : tool_call) : M pyval :=
  match c with
  | Call_send_slack_message channel text => send_slack_message channel text
  | Call_get_slack_channels => get_slack_channels
  | Call_get_slack_channel_history channel_id limit =>
      get_slack_channel_history channel_id limit
  | Call_send_slack_direct_message user_id text =>
      send_slack_direct_message user_id text
  | Call_get_slack_users => get_slack_users
  end.

(** The client method a tool calls first. *)
Definition client_call (c : tool_call) : M pyval :=
  match c with
  | Call_send_slack_message channel text =>
      send_message slack_client (PStr channel) text
  | Call_get_slack_channels => get_channels slack_client
  | Call_get_slack_channel_history channel_id limit =>
      get_channel_history slack_client channel_id limit
  | Call_send_slack_direct_message user_id text =>
      send_direct_message slack_client user_id text
  | Call_get_slack_users => get_users slack_client
  end.

(** The text each tool puts before [str(e)]. *)
Definition failure_prefix (c : tool_call) : string :=
  match c with
  | Call_send_slack_message _ _ => "메시지 전송 실패: "
  | Call_get_slack_channels => "채널 목록 조회 실패: "
  | Call_get_slack_channel_history _ _ => "메시지 히스토리 조회 실패: "
  | Call_send_slack_direct_message _ _ => "다이렉트 메시지 전송 실패: "
  | Call_get_slack_users => "사용자 목록 조회 실패: "
  end.

(* ---------------------------------------------------------------- *)
(** *** The specification's wording, for comparison with the code *)

(** Tokenizer as the specification describes it: every character that is
    not alphanumeric, underscore or a Hangul syllable becomes a space;
    repeated whitespace is collapsed; the text is lower-cased and split
    on whitespace. *)
Definition spec_is_token_char (c : char) : bool :=
  isalnum (rt_ucd rt) c || (c =? cp "_")%N || between 44032%N 55203%N c.

Definition spec_tokenize (text : pystr) : list pystr :=
  let replaced := map (fun c => if spec_is_token_char c then c else 32%N) text in
  let collapsed := collapse_whitespace (rt_ucd rt) replaced in
  split (rt_ucd rt) (lower (rt_ucd rt) collapsed).


(** The request [get_channel_history] builds for an effective limit. *)
Definition history_request (self : SlackAPIClient) (channel_id : pystr)
    (effective_limit : Z) : request :=
  {| req_verb := HttpGet;
     req_url := base_url self ++ u "/" ++ u "conversations.history";
     req_headers := headers self;
     req_data := Some [ (u "channel", PStr channel_id);
                        (u "limit", PInt effective_limit) ] |}.

End Program.

Arguments net world : clear implicits.
Arguments M world A : clear implicits.

(* ================================================================== *)
(** ** Vocabulary of the statements *)
(* ================================================================== *)

(** What a tool hands back to the host: a dictionary with a boolean
    ['success'] and, when that is [False], a string ['error']. *)
Definition structured_result (v : pyval) : Prop :=
  exists d, v = PDict d /\
    exists b, Py.dict_get d (u "success") = Some (PBool b) /\
      (b = false -> exists msg, Py.dict_get d (u "error") = Some (PStr msg)).

(** [message.get(k)] on a dictionary. *)
Definition field (d : list (pystr * pyval)) (k : string) : pyval :=
  match Py.dict_get d (u k) with Some v => v | None => PNone end.

(** An ordinary message written by a person, with the given text. *)
Definition plain_human_message (d : list (pystr * pyval)) (text : pystr) : Prop :=
  Py.dict_get d (u "text") = Some (PStr text) /\
  Py.dict_get d (u "type") = Some (PStr (u "message")) /\
  Py.truthy (field d "bot_id") = false /\
  Py.truthy (field d "subtype") = false.

(** A message the analyzer's loop passes over: it carries a bot marker or
    a subtype, it has no text, or its type is not ['message']. *)
Definition skipped_message (d : list (pystr * pyval)) : Prop :=
  Py.truthy (field d "bot_id") = true \/
  Py.truthy (field d "subtype") = true \/
  Py.dict_get d (u "text") = None \/
  Py.eq_str (field d "type") (u "message") = false.

(** Every token of the text is a stop-word or shorter than two
    characters. *)
Definition only_stop_or_short (rt : runtime) (text : pystr) : Prop :=
  Forall (fun w => In w stop_words \/ PyStr.len w < 2) (spec_tokenize rt text).

(** A message whose text is a string made only of such tokens. *)
Definition stop_only_message (rt : runtime) (message : pyval) : Prop :=
  exists d text, message = PDict d /\
    Py.dict_get d (u "text") = Some (PStr text) /\ only_stop_or_short rt text.

(** [user.get('deleted', False)] is true. *)
Definition user_deleted (user : pyval) : bool :=
  match user with
  | PDict d =>
      Py.truthy (match Py.dict_get d (u "deleted") with
                 | Some v => v
                 | None => PBool false
                 end)
  | _ => false
  end.




(** An entry of the top-words report whose percentage is the integer 0. *)
Definition zero_entry (wc : pystr * Z) : pyval :=
  PDict [ (u "word", PStr (fst wc));
          (u "count", PInt (snd wc));
          (u "percentage", PInt 0) ].

(** Number of times [w] occurs in a list of words. *)
Definition occurrences (w : pystr) (words : list pystr) : Z :=
  Z.of_nat (List.length (filter (PyStr.eqb w) words)).

(** The distinct words of a list, in the order in which each first
    appears. *)
Fixpoint first_appearances (words : list pystr) : list pystr :=
  match words with
  | [] => []
  | w :: rest =>
      w :: filter (fun x => negb (PyStr.eqb w x)) (first_appearances rest)
  end.

(** Ranking order: the count does not increase. *)
Definition count_ge (a b : pystr * Z) : Prop := snd b <= snd a.

(** The request [_make_request] hands to the network. *)
Definition api_request (self : SlackAPIClient) (endpoint method : pystr)
    (data : option (list (pystr * pyval))) : request :=
  {| req_verb := if PyStr.eqb method (u "GET") then HttpGet else HttpPost;
     req_url := base_url self ++ u "/" ++ endpoint;
     req_headers := headers self;
     req_data := data |}.

(** The exception [raise Exception(prefix + detail)] raises. *)
Definition plain_exception (prefix : string) (detail : pystr) : pyexc :=
  {| exc_cls := ExceptionC; exc_str := u prefix ++ detail |}.

(** The first request a tool sends. *)
Definition first_request (slack_token : pystr) (c : tool_call) : request :=
  let client := slack_client slack_token in
  match c with
  | Call_send_slack_message channel text =>
      api_request client (u "chat.postMessage") (u "POST")
        (Some [ (u "channel", PStr channel); (u "text", PStr text) ])
  | Call_get_slack_channels =>
      api_request client (u "conversations.list") (u "GET")
        (Some [ (u "types", PStr (u "public_channel,private_channel"));
                (u "exclude_archived", PBool true) ])
  | Call_get_slack_channel_history channel_id limit =>
      api_request client (u "conversations.history") (u "GET")
        (Some [ (u "channel", PStr channel_id);
                (u "limit", PInt (if limit >? 100 then 100 else limit)) ])
  | Call_send_slack_direct_message user_id _ =>
      api_request client (u "conversations.open") (u "POST")
        (Some [ (u "users", PStr user_id) ])
  | Call_get_slack_users =>
      api_request client (u "users.list") (u "GET") None
  end.

(** [body.get('ok', False)] and [body.get('error', 'Unknown error')] of a
    response dictionary. *)
Definition ok_flag (body : list (pystr * pyval)) : pyval :=
  match Py.dict_get body (u "ok") with Some v => v | None => PBool false end.

Definition error_code (body : list (pystr * pyval)) : pyval :=
  match Py.dict_get body (u "error") with
  | Some v => v
  | None => PStr (u "Unknown error")
  end.

(** A channel object as the service sends it: a dictionary whose
    ['topic'] and ['purpose'], when present, are dictionaries. *)
Definition channel_object (channel : pyval) : Prop :=
  exists d, channel = PDict d /\
    (forall v, Py.dict_get d (u "topic") = Some v -> exists t, v = PDict t) /\
    (forall v, Py.dict_get d (u "purpose") = Some v -> exists p, v = PDict p).

(** [d.get(k, default)] on a dictionary. *)
Definition get_or (d : list (pystr * pyval)) (k : string) (default : pyval)
  : pyval :=
  match Py.dict_get d (u k) with Some v => v | None => default end.

(** [d.get(k, {}).get('value', '')] where [d.get(k, {})] is a dictionary. *)
Definition nested_value (d : list (pystr * pyval)) (k : string) : pyval :=
  match Py.dict_get d (u k) with
  | Some (PDict inner) => get_or inner "value" (PStr [])
  | _ => PStr []
  end.

(** The seven fields the channel listing keeps of a channel object. *)
Definition project_channel (channel : pyval) : pyval :=
  match channel with
  | PDict d =>
      PDict [ (u "id", get_or d "id" PNone);
              (u "name", get_or d "name" PNone);
              (u "is_private", get_or d "is_private" (PBool false));
              (u "is_member", get_or d "is_member" (PBool false));
              (u "topic", nested_value d "topic");
              (u "purpose", nested_value d "purpose");
              (u "num_members", get_or d "num_members" (PInt 0)) ]
  | _ => PNone
  end.

(** The five fields the history tool keeps of a message. *)
Definition project_message (message : pyval) : pyval :=
  match message with
  | PDict d =>
      PDict [ (u "text", get_or d "text" (PStr []));
              (u "user", get_or d "user" (PStr []));
              (u "timestamp", get_or d "ts" (PStr []));
              (u "type", get_or d "type" (PStr []));
              (u "subtype", get_or d "subtype" (PStr [])) ]
  | _ => PNone
  end.

Definition is_dict (v : pyval) : Prop := exists d, v = PDict d.

(** An ordinary message of a person whose ['text'] holds the value [v]. *)
Definition ordinary_message (d : list (pystr * pyval)) (v : pyval) : Prop :=
  Py.dict_get d (u "text") = Some v /\
  Py.dict_get d (u "type") = Some (PStr (u "message")) /\
  Py.truthy (field d "bot_id") = false /\
  Py.truthy (field d "subtype") = false.

(** The characters of a word extracted from ASCII text: a lower-case
    letter, a digit or the underscore. *)
Definition ascii_word_char (c : char) : bool :=
  between (cp "0") (cp "9") c || between (cp "a") (cp "z") c
  || (c =? cp "_")%N.

(** The float [f] is exactly the integer [z]: its sign, mantissa and
    exponent denote [z]. *)
Definition float_is_int (f : spec_float) (z : Z) : Prop :=
  match f with
  | S754_zero _ => z = 0
  | S754_finite s m e =>
      let v := if s then Z.neg m else Z.pos m in
      if 0 <=? e then z = v * 2 ^ e else v = z * 2 ^ (- e)
  | _ => False
  end.

(** The tokenizer as the specification words it, step by step and with
    its own character classes; outside ASCII the classes and the
    lower-casing are the interpreter's. *)
Definition spec_ascii_alphanumerics : pystr :=
  u "0123456789ABCDEFGHIJKLMNOPQRSTUVWXYZabcdefghijklmnopqrstuvwxyz".

Definition spec_ascii_whitespace : pystr :=
  [9; 10; 11; 12; 13; 28; 29; 30; 31; 32]%N.

Definition spec_member (c : char) (s : pystr) : bool := existsb (N.eqb c) s.

Definition spec_alphanumeric (rt : runtime) (c : char) : bool :=
  if (c <? 128)%N then spec_member c spec_ascii_alphanumerics
  else ucd_isalnum (rt_ucd rt) c.

Definition spec_whitespace (rt : runtime) (c : char) : bool :=
  if (c <? 128)%N then spec_member c spec_ascii_whitespace
  else ucd_isspace (rt_ucd rt) c.

Definition spec_hangul_syllable (c : char) : bool :=
  (44032 <=? c)%N && (c <=? 55203)%N.

(** Step one: a character that is not alphanumeric, the underscore or a
    Hangul syllable becomes a space. *)
Definition spec_replace (rt : runtime) (c : char) : char :=
  if spec_alphanumeric rt c || (c =? 95)%N || spec_hangul_syllable c
  then c else 32%N.

(** Step two: of a run of whitespace only one space remains.  A whitespace
    character followed by another is dropped; the last of a run becomes the
    space. *)
Fixpoint spec_collapse (rt : runtime) (text : pystr) : pystr :=
  match text with
  | [] => []
  | c :: rest =>
      if spec_whitespace rt c
      then match rest with
           | [] => [32%N]
           | c' :: _ =>
               if spec_whitespace rt c' then spec_collapse rt rest
               else 32%N :: spec_collapse rt rest
           end
      else c :: spec_collapse rt rest
  end.

(** Step three: each capital letter becomes the small letter at the same
    place of the alphabet. *)
Fixpoint spec_lookup (c : char) (pairs : list (char * char)) : char :=
  match pairs with
  | [] => c
  | (upper, small) :: rest =>
      if (c =? upper)%N then small else spec_lookup c rest
  end.

Definition spec_lower_char (c : char) : char :=
  spec_lookup c (combine (u "ABCDEFGHIJKLMNOPQRSTUVWXYZ")
                         (u "abcdefghijklmnopqrstuvwxyz")).

Definition spec_lower (rt : runtime) (text : pystr) : pystr :=
  if forallb (fun c => (c <? 128)%N) text then map spec_lower_char text
  else ucd_lower (rt_ucd rt) text.

(** Step four: the text is cut at every whitespace character, and the
    empty pieces are thrown away. *)
Definition spec_field_step (rt : runtime) (c : char) (fields : list pystr)
  : list pystr :=
  if spec_whitespace rt c then [] :: fields
  else match fields with
       | [] => [[c]]
       | w :: ws => (c :: w) :: ws
       end.

Definition spec_fields (rt : runtime) (text : pystr) : list pystr :=
  fold_right (spec_field_step rt) [] text.

Definition spec_nonempty (w : pystr) : bool :=
  match w with [] => false | _ => true end.

Definition spec_split (rt : runtime) (text : pystr) : list pystr :=
  filter spec_nonempty (spec_fields rt text).

Definition spec_words (rt : runtime) (text : pystr) : list pystr :=
  spec_split rt (spec_lower rt (spec_collapse rt (map (spec_replace rt) text))).

(** The first character is whitespace. *)
Definition head_is_space (rt : runtime) (text : pystr) : bool :=
  match text with
  | [] => false
  | c :: _ => isspace (rt_ucd rt) c
  end.

(** The word being read, put in front of the pieces still to come. *)
Definition prepend (word : pystr) (fields : list pystr) : list pystr :=
  match fields with
  | [] => [word]
  | w :: ws => (word ++ w) :: ws
  end.

(* ================================================================== *)
(** ** Concrete inputs for the instances *)
(* ================================================================== *)

(** An interpreter whose tables hold nothing outside ASCII. *)
Definition ascii_runtime : runtime :=
  {| rt_ucd := {| ucd_isalnum := fun _ => false;
                  ucd_isspace := fun _ => false;
                  ucd_lower := fun s => s |};
     rt_str := fun _ => u "?" |}.

(** A network that answers every request with the same body. *)
Definition canned (body : pyval) : request -> unit -> exc pyval * unit :=
  fun _ w => (inr body, w).

Definition ok_body (k : string) (v : pyval) : pyval :=
  PDict [ (u "ok", PBool true); (u k, v) ].

Definition start : net unit := {| net_world := tt; net_sent := [] |}.

Definition demo_client : SlackAPIClient := SlackAPIClient_init (u "xoxb-token").

Definition demo_message (text : string) : list (pystr * pyval) :=
  [ (u "type", PStr (u "message")); (u "user", PStr (u "U1"));
    (u "text", PStr (u text)); (u "ts", PStr (u "1700000000.000100")) ].

(* ================================================================== *)
(** ** Basic facts *)
(* ================================================================== *)

Lemma pystr_eqb_eq (a b : pystr) : PyStr.eqb a b = true <-> a = b.
Proof.
  revert b; induction a as [|x a IH]; intros [|y b]; simpl; split;
    try discriminate; try reflexivity.
  - intros H. apply andb_true_iff in H as [Hx Hab].
    apply N.eqb_eq in Hx. apply IH in Hab. congruence.
  - intros H. injection H as -> ->.
    rewrite N.eqb_refl. simpl. now apply IH.
Qed.

Lemma pystr_eqb_refl (a : pystr) : PyStr.eqb a a = true.
Proof. now apply pystr_eqb_eq. Qed.

Lemma is_stop_word_In (w : pystr) : is_stop_word w = true <-> In w stop_words.
Proof.
  unfold is_stop_word. rewrite existsb_exists. split.
  - intros (x & Hin & Heq). apply pystr_eqb_eq in Heq. now subst.
  - intros Hin. exists w. split; [assumption | apply pystr_eqb_refl].
Qed.

Section NetworkFacts.

Variable rt : runtime.
Variable world : Type.
Variable http : request -> world -> exc pyval * world.

(** [_make_request] hands exactly one request to the network, whatever
    comes back. *)
Lemma make_request_sent self endpoint method data (s : net world) :
  net_sent (snd (_make_request rt http self endpoint method data s))
  = net_sent s ++
      [ {| req_verb := if PyStr.eqb method (u "GET") then HttpGet else HttpPost;
           req_url := base_url self ++ u "/" ++ endpoint;
           req_headers := headers self;
           req_data := data |} ].
Proof.
  unfold _make_request, try_except, bind, send_request, lift, raise, ret.
  destruct (http _ (net_world s)) as [[e | result] w']; simpl.
  - destruct (is_RequestException e); [reflexivity|].
    destruct (is_JSONDecodeError e); reflexivity.
  - destruct (Py.get result (u "ok") (PBool false)) as [e | ok]; simpl.
    + destruct (is_RequestException e); [reflexivity|].
      destruct (is_JSONDecodeError e); reflexivity.
    + destruct (negb (Py.truthy ok)); simpl; [|reflexivity].
      destruct (Py.get result (u "error") _) as [e | msg]; simpl.
      * destruct (is_RequestException e); [reflexivity|].
        destruct (is_JSONDecodeError e); reflexivity.
      * reflexivity.
Qed.

Lemma bind_lift_state {A B} (m : M world A) (f : A -> exc B) (s : net world) :
  snd (bind m (fun a => lift (f a)) s) = snd (m s).
Proof.
  unfold bind, lift. destruct (m s) as [[e | a] s']; reflexivity.
Qed.

(** The request on the wire carries the limit after the clamp. *)
Lemma get_channel_history_sent self channel_id limit (s : net world) :
  net_sent (snd (get_channel_history rt http self channel_id limit s))
  = net_sent s ++
      [ history_request self channel_id (if limit >? 100 then 100 else limit) ].
Proof.
  unfold get_channel_history. rewrite bind_lift_state, make_request_sent.
  reflexivity.
Qed.

End NetworkFacts.

(* ================================================================== *)
(** ** The limit of a history fetch *)
(* ================================================================== *)

(** C2.  A limit above 100 goes downstream as exactly 100: the one request
    sent carries [limit = 100], and the call behaves in every respect as the
    call with limit 100, so the clamp raises nothing of its own. *)
Theorem history_limit_clamped_to_100
    (rt : runtime) (world : Type)
    (http : request -> world -> exc pyval * world)
    (self : SlackAPIClient) (channel_id : pystr) (limit : Z) (s : net world) :
  100 < limit ->
  net_sent (snd (get_channel_history rt http self channel_id limit s))
    = net_sent s ++ [history_request self channel_id 100]
  /\ Py.dict_get
       (match req_data (history_request self channel_id 100) with
        | Some data => data
        | None => []
        end) (u "limit") = Some (PInt 100)
  /\ get_channel_history rt http self channel_id limit s
     = get_channel_history rt http self channel_id 100 s.
Proof.
  intros Hlimit.
  assert (Hgt : (limit >? 100) = true) by (apply Z.gtb_lt; lia).
  repeat split.
  - rewrite get_channel_history_sent, Hgt. reflexivity.
  - unfold get_channel_history. rewrite Hgt. reflexivity.
Qed.

Lemma history_limit_clamped_to_100_witness :
  100 < 250 /\
  net_sent (snd (get_channel_history ascii_runtime
                   (canned (ok_body "messages" (PList [])))
                   demo_client (u "C1") 250 start))
    = [history_request demo_client (u "C1") 100].
Proof.
  split; [lia|].
  apply (history_limit_clamped_to_100 ascii_runtime unit
           (canned (ok_body "messages" (PList [])))
           demo_client (u "C1") 250 start).
  lia.
Defined.

(** C10.  A limit of at most 100, zero and negative values included, goes
    downstream as the caller gave it. *)
Theorem history_limit_at_most_100_unchanged
    (rt : runtime) (world : Type)
    (http : request -> world -> exc pyval * world)
    (self : SlackAPIClient) (channel_id : pystr) (limit : Z) (s : net world) :
  limit <= 100 ->
  net_sent (snd (get_channel_history rt http self channel_id limit s))
    = net_sent s ++ [history_request self channel_id limit]
  /\ Py.dict_get
       (match req_data (history_request self channel_id limit) with
        | Some data => data
        | None => []
        end) (u "limit") = Some (PInt limit).
Proof.
  intros Hlimit.
  assert (Hgt : (limit >? 100) = false).
  { destruct (limit >? 100) eqn:E; [apply Z.gtb_lt in E; lia | reflexivity]. }
  split.
  - rewrite get_channel_history_sent, Hgt. reflexivity.
  - reflexivity.
Qed.

Lemma history_limit_at_most_100_unchanged_witness :
  -7 <= 100 /\
  net_sent (snd (get_channel_history ascii_runtime
                   (canned (ok_body "messages" (PList [])))
                   demo_client (u "C1") (-7) start))
    = [history_request demo_client (u "C1") (-7)].
Proof.
  split; [lia|].
  apply (history_limit_at_most_100_unchanged ascii_runtime unit
           (canned (ok_body "messages" (PList [])))
           demo_client (u "C1") (-7) start).
  lia.
Defined.


(* ================================================================== *)
(** ** The tokenizer *)
(* ================================================================== *)

Section TokenizerFacts.

Variable rt : runtime.

Lemma space_isspace : isspace (rt_ucd rt) (cp " ") = true.
Proof. reflexivity. Qed.

(** Collapsing whitespace only looks at which characters are whitespace
    and at the characters that are not. *)
Lemma collapse_from_agree (f g : char -> char) :
  (forall c, isspace (rt_ucd rt) (f c) = isspace (rt_ucd rt) (g c)) ->
  (forall c, isspace (rt_ucd rt) (f c) = false -> f c = g c) ->
  forall (text : pystr) (in_run : bool),
    collapse_from (rt_ucd rt) in_run (map f text) = collapse_from (rt_ucd rt) in_run (map g text).
Proof.
  intros Hspace Hsame text.
  induction text as [|c rest IH]; intros in_run; simpl; [reflexivity|].
  rewrite <- (Hspace c).
  destruct (isspace (rt_ucd rt) (f c)) eqn:E.
  - destruct in_run; rewrite IH; reflexivity.
  - rewrite (Hsame c E), IH. reflexivity.
Qed.

(** After both substitutions the text of the code and the text of the
    specification coincide: the code leaves whitespace to the second
    substitution, the specification turns it into a space in the first. *)
Lemma substitutions_agree (text : pystr) :
  collapse_whitespace (rt_ucd rt)
    (map (fun c => if kept_by_pattern rt c then c else cp " ") text)
  = collapse_whitespace (rt_ucd rt)
      (map (fun c => if spec_is_token_char rt c then c else 32%N) text).
Proof.
  unfold collapse_whitespace. apply collapse_from_agree.
  - intros c. unfold kept_by_pattern, spec_is_token_char, re_word.
    change (cp "가") with 44032%N. change (cp "힣") with 55203%N.
    destruct (isalnum (rt_ucd rt) c || (c =? cp "_")%N) eqn:Ew; simpl.
    + reflexivity.
    + destruct (isspace (rt_ucd rt) c) eqn:Es; simpl.
      * destruct (between 44032%N 55203%N c); [reflexivity | exact Es].
      * destruct (between 44032%N 55203%N c); reflexivity.
  - intros c. unfold kept_by_pattern, spec_is_token_char, re_word.
    change (cp "가") with 44032%N. change (cp "힣") with 55203%N.
    destruct (isalnum (rt_ucd rt) c || (c =? cp "_")%N) eqn:Ew; simpl.
    + reflexivity.
    + destruct (isspace (rt_ucd rt) c) eqn:Es; simpl.
      * rewrite Es. discriminate.
      * destruct (between 44032%N 55203%N c); reflexivity.
Qed.

(** [_extract_words_from_text] on a string: the tokens of the
    specification, filtered by the stop-word and length test. *)
Lemma extract_words_filter_tokens (text : pystr) :
  _extract_words_from_text rt (PStr text)
  = inr (filter keep_word (spec_tokenize rt text)).
Proof.
  unfold _extract_words_from_text, spec_tokenize.
  destruct text as [|c rest]; [reflexivity|].
  cbn [Py.truthy negb]. unfold eret.
  rewrite (substitutions_agree (c :: rest)). reflexivity.
Qed.

End TokenizerFacts.

(* ================================================================== *)
(** ** The analyzer's loop *)
(* ================================================================== *)

Section AnalyzerFacts.

Variable rt : runtime.

Lemma message_words_plain d text :
  plain_human_message d text ->
  message_words rt (PDict d) = _extract_words_from_text rt (PStr text).
Proof.
  intros (Htext & Htype & Hbot & Hsub).
  unfold message_words, field in *. simpl.
  unfold Py.dict_has. rewrite Htext, Htype. simpl.
  destruct (Py.dict_get d (u "bot_id")) as [b|]; simpl in *;
    rewrite ?Hbot; simpl;
    destruct (Py.dict_get d (u "subtype")) as [t|]; simpl in *;
    rewrite ?Hsub; reflexivity.
Qed.

Lemma message_words_skipped d :
  skipped_message d -> message_words rt (PDict d) = inr [].
Proof.
  unfold skipped_message, message_words, field. simpl. unfold Py.dict_has.
  intros H.
  destruct (Py.dict_get d (u "text")) as [text|] eqn:Etext; simpl;
    [|reflexivity].
  destruct (Py.eq_str
              match Py.dict_get d (u "type") with
              | Some x => x
              | None => PNone
              end (u "message")) eqn:Etype; simpl; [|reflexivity].
  destruct (Py.truthy
              match Py.dict_get d (u "bot_id") with
              | Some x => x
              | None => PNone
              end) eqn:Ebot; simpl; [reflexivity|].
  destruct (Py.truthy
              match Py.dict_get d (u "subtype") with
              | Some x => x
              | None => PNone
              end) eqn:Esub; simpl; [reflexivity|].
  destruct H as [H | [H | [H | H]]]; discriminate.
Qed.

(** A dictionary message with a string text contributes either nothing or
    the words of that text. *)
Lemma message_words_of_text d text :
  Py.dict_get d (u "text") = Some (PStr text) ->
  message_words rt (PDict d) = inr []
  \/ message_words rt (PDict d) = _extract_words_from_text rt (PStr text).
Proof.
  intros Htext. unfold message_words. simpl. unfold Py.dict_has.
  rewrite Htext. simpl.
  destruct (Py.eq_str _ (u "message")); simpl; [|now left].
  destruct (Py.truthy _); simpl; [now left|].
  destruct (Py.truthy _); simpl; [now left|].
  now right.
Qed.

Lemma filter_keep_word_nil (tokens : list pystr) :
  Forall (fun w => In w stop_words \/ PyStr.len w < 2) tokens ->
  filter keep_word tokens = [].
Proof.
  induction 1 as [|w rest Hw _ IH]; simpl; [reflexivity|].
  replace (keep_word w) with false; [exact IH|].
  symmetry. unfold keep_word. destruct Hw as [Hstop | Hshort].
  - apply is_stop_word_In in Hstop. rewrite Hstop.
    apply andb_false_r.
  - replace (2 <=? PyStr.len w) with false; [reflexivity|].
    symmetry. apply Z.leb_gt. exact Hshort.
Qed.

Lemma message_words_stop_only message :
  stop_only_message rt message -> message_words rt message = inr [].
Proof.
  intros (d & text & -> & Htext & Honly).
  destruct (message_words_of_text d text Htext) as [H | H]; [exact H|].
  rewrite H, extract_words_filter_tokens.
  f_equal. apply filter_keep_word_nil. exact Honly.
Qed.

(** Messages that contribute no words leave [all_words] as it was. *)
Lemma collect_words_nothing (messages : list pyval) (all_words : list pystr) :
  Forall (fun m => message_words rt m = inr []) messages ->
  collect_words rt messages all_words = inr all_words.
Proof.
  intros H. revert all_words.
  induction H as [|m rest Hm _ IH]; intros all_words; simpl;
    [reflexivity|].
  rewrite Hm. simpl. rewrite app_nil_r. apply IH.
Qed.

Lemma word_frequency_nothing (messages : list pyval) :
  Forall (fun m => message_words rt m = inr []) messages ->
  word_frequency_of rt (PList messages) = inr [].
Proof.
  intros H. unfold word_frequency_of. simpl.
  rewrite (collect_words_nothing messages [] H). reflexivity.
Qed.

Variable world : Type.
Variable http : request -> world -> exc pyval * world.

(** The analyzer, once the history fetch has returned. *)
Lemma analyze_after_fetch self channel_id limit (s s' : net world) messages :
  get_channel_history rt http self channel_id (Z.min limit 100) s
    = (inr messages, s') ->
  analyze_channel_word_frequency rt http self channel_id limit s
    = (word_frequency_of rt messages, s').
Proof.
  intros Hfetch. unfold analyze_channel_word_frequency.
  replace (Z.min (if limit >? 1000 then 1000 else limit) 100)
    with (Z.min limit 100).
  - unfold bind, lift. rewrite Hfetch. reflexivity.
  - destruct (limit >? 1000) eqn:E; [apply Z.gtb_lt in E; lia | reflexivity].
Qed.

End AnalyzerFacts.

(** C8.  When every message of the fetched batch has a text made only of
    stop-words and tokens shorter than two characters, the analyzer's
    frequency table is empty. *)
Theorem stop_words_only_table_empty
    (rt : runtime) (world : Type)
    (http : request -> world -> exc pyval * world)
    (self : SlackAPIClient) (channel_id : pystr) (limit : Z)
    (s s' : net world) (messages : list pyval) :
  Forall (stop_only_message rt) messages ->
  get_channel_history rt http self channel_id (Z.min limit 100) s
    = (inr (PList messages), s') ->
  analyze_channel_word_frequency rt http self channel_id limit s
    = (inr [], s').
Proof.
  intros Hall Hfetch.
  rewrite (analyze_after_fetch rt world http _ _ _ _ _ _ Hfetch).
  rewrite word_frequency_nothing; [reflexivity|].
  eapply Forall_impl; [|exact Hall].
  intros m Hm. now apply message_words_stop_only.
Qed.

Lemma stop_words_only_table_empty_witness :
  analyze_channel_word_frequency ascii_runtime
    (canned (ok_body "messages"
       (PList [ PDict (demo_message "THE is - a, I x y!");
                PDict (demo_message "the a an - I") ])))
    demo_client (u "C1") 100 start
  = (inr [], {| net_world := tt;
                net_sent := [history_request demo_client (u "C1") 100] |}).
Proof.
  apply (stop_words_only_table_empty ascii_runtime unit
           (canned (ok_body "messages"
              (PList [ PDict (demo_message "THE is - a, I x y!");
                       PDict (demo_message "the a an - I") ])))
           demo_client (u "C1") 100 start
           {| net_world := tt;
              net_sent := [history_request demo_client (u "C1") 100] |}
           [ PDict (demo_message "THE is - a, I x y!");
             PDict (demo_message "the a an - I") ]).
  - apply Forall_cons; [|apply Forall_cons; [|apply Forall_nil]].
    + exists (demo_message "THE is - a, I x y!"), (u "THE is - a, I x y!").
      split; [reflexivity|]. split; [reflexivity|].
      unfold only_stop_or_short.
      change (spec_tokenize ascii_runtime (u "THE is - a, I x y!"))
        with [u "the"; u "is"; u "a"; u "i"; u "x"; u "y"].
      repeat (apply Forall_cons;
              [first [ left; apply is_stop_word_In; reflexivity
                     | right; reflexivity ]|]).
      apply Forall_nil.
    + exists (demo_message "the a an - I"), (u "the a an - I").
      split; [reflexivity|]. split; [reflexivity|].
      unfold only_stop_or_short.
      change (spec_tokenize ascii_runtime (u "the a an - I"))
        with [u "the"; u "a"; u "an"; u "i"].
      repeat (apply Forall_cons;
              [first [ left; apply is_stop_word_In; reflexivity
                     | right; reflexivity ]|]).
      apply Forall_nil.
  - reflexivity.
Defined.

(** C9.  When every message of the fetched batch is bot-originated (its
    [bot_id] holds a value), carries a subtype, has no text or has a type
    other than ['message'], the analyzer's frequency table is empty whatever
    the texts are. *)
Theorem skipped_messages_table_empty
    (rt : runtime) (world : Type)
    (http : request -> world -> exc pyval * world)
    (self : SlackAPIClient) (channel_id : pystr) (limit : Z)
    (s s' : net world) (messages : list pyval) :
  Forall (fun m => exists d, m = PDict d /\ skipped_message d) messages ->
  get_channel_history rt http self channel_id (Z.min limit 100) s
    = (inr (PList messages), s') ->
  analyze_channel_word_frequency rt http self channel_id limit s
    = (inr [], s').
Proof.
  intros Hall Hfetch.
  rewrite (analyze_after_fetch rt world http _ _ _ _ _ _ Hfetch).
  rewrite word_frequency_nothing; [reflexivity|].
  eapply Forall_impl; [|exact Hall].
  intros m (d & -> & Hd). now apply message_words_skipped.
Qed.

Lemma skipped_messages_table_empty_witness :
  analyze_channel_word_frequency ascii_runtime
    (canned (ok_body "messages"
       (PList [ PDict ((u "bot_id", PStr (u "B042")) :: demo_message "deploy finished");
                PDict ((u "subtype", PStr (u "channel_join")) :: demo_message "joined the channel");
                PDict [ (u "type", PStr (u "message")); (u "user", PStr (u "U1")) ];
                PDict [ (u "type", PStr (u "reaction")); (u "text", PStr (u "thumbs up")) ] ])))
    demo_client (u "C1") 100 start
  = (inr [], {| net_world := tt;
                net_sent := [history_request demo_client (u "C1") 100] |}).
Proof.
  apply (skipped_messages_table_empty ascii_runtime unit
           (canned (ok_body "messages"
              (PList [ PDict ((u "bot_id", PStr (u "B042")) :: demo_message "deploy finished");
                       PDict ((u "subtype", PStr (u "channel_join")) :: demo_message "joined the channel");
                       PDict [ (u "type", PStr (u "message")); (u "user", PStr (u "U1")) ];
                       PDict [ (u "type", PStr (u "reaction")); (u "text", PStr (u "thumbs up")) ] ])))
           demo_client (u "C1") 100 start
           {| net_world := tt;
              net_sent := [history_request demo_client (u "C1") 100] |}
           [ PDict ((u "bot_id", PStr (u "B042")) :: demo_message "deploy finished");
             PDict ((u "subtype", PStr (u "channel_join")) :: demo_message "joined the channel");
             PDict [ (u "type", PStr (u "message")); (u "user", PStr (u "U1")) ];
             PDict [ (u "type", PStr (u "reaction")); (u "text", PStr (u "thumbs up")) ] ]).
  - apply Forall_cons; [|apply Forall_cons; [|apply Forall_cons;
      [|apply Forall_cons; [|apply Forall_nil]]]].
    + eexists. split; [reflexivity|]. left. reflexivity.
    + eexists. split; [reflexivity|]. right. left. reflexivity.
    + eexists. split; [reflexivity|]. right. right. left. reflexivity.
    + eexists. split; [reflexivity|]. right. right. right. reflexivity.
  - reflexivity.
Defined.

(* ================================================================== *)
(** ** The top-words report *)
(* ================================================================== *)

Lemma emap_zero_entries (top_words : list (pystr * Z)) :
  emap (top_word_entry 0) top_words = inr (map zero_entry top_words).
Proof.
  induction top_words as [|[word count] rest IH]; simpl; [reflexivity|].
  rewrite IH. reflexivity.
Qed.

Lemma top_words_report_zero_total
    (channel_id : pystr) (top_n message_limit : Z)
    (word_frequency : list (pystr * Z)) :
  sum_counts word_frequency = 0 ->
  top_words_report channel_id top_n message_limit word_frequency
  = inr (PDict
      [ (u "success", PBool true);
        (u "channel_id", PStr channel_id);
        (u "analysis_stats",
          PDict [ (u "total_words_analyzed", PInt 0);
                  (u "unique_words", py_len word_frequency);
                  (u "message_limit", PInt message_limit) ]);
        (u "top_words",
          PList (map zero_entry (Py.slice_to word_frequency top_n))) ]).
Proof.
  intros Hzero. unfold top_words_report.
  rewrite Hzero, emap_zero_entries. reflexivity.
Qed.

(** C6.  When the total token count is zero the report is built without
    any exception, and every entry of it carries the integer 0 as its
    percentage: the guard [total_words > 0] keeps the division from being
    evaluated, whatever the count. *)
Theorem zero_total_percentages
    (rt : runtime) (world : Type)
    (http : request -> world -> exc pyval * world)
    (self : SlackAPIClient) (channel_id : pystr) (top_n message_limit : Z)
    (s s' : net world) (word_frequency : list (pystr * Z)) :
  analyze_channel_word_frequency rt http self channel_id message_limit s
    = (inr word_frequency, s') ->
  sum_counts word_frequency = 0 ->
  get_top_words_in_channel rt http self channel_id top_n message_limit s
  = (inr (PDict
       [ (u "success", PBool true);
         (u "channel_id", PStr channel_id);
         (u "analysis_stats",
           PDict [ (u "total_words_analyzed", PInt 0);
                   (u "unique_words", py_len word_frequency);
                   (u "message_limit", PInt message_limit) ]);
         (u "top_words",
           PList (map zero_entry (Py.slice_to word_frequency top_n))) ]),
     s')
  /\ top_words_report channel_id top_n message_limit word_frequency
     = inr (PDict
         [ (u "success", PBool true);
           (u "channel_id", PStr channel_id);
           (u "analysis_stats",
             PDict [ (u "total_words_analyzed", PInt 0);
                     (u "unique_words", py_len word_frequency);
                     (u "message_limit", PInt message_limit) ]);
           (u "top_words",
             PList (map zero_entry (Py.slice_to word_frequency top_n))) ])
  /\ forall count, percentage count (sum_counts word_frequency) = inr (PInt 0).
Proof.
  intros Hfreq Hzero.
  pose proof (top_words_report_zero_total channel_id top_n message_limit
                word_frequency Hzero) as Hreport.
  repeat split.
  - unfold get_top_words_in_channel, try_except, bind, lift.
    rewrite Hfreq, Hreport. reflexivity.
  - exact Hreport.
  - intros count. rewrite Hzero. reflexivity.
Qed.

Lemma zero_total_percentages_witness :
  get_top_words_in_channel ascii_runtime
    (canned (ok_body "messages"
       (PList [ PDict (demo_message "a - the, I") ])))
    demo_client (u "C1") 10 100 start
  = (inr (PDict
       [ (u "success", PBool true);
         (u "channel_id", PStr (u "C1"));
         (u "analysis_stats",
           PDict [ (u "total_words_analyzed", PInt 0);
                   (u "unique_words", PInt 0);
                   (u "message_limit", PInt 100) ]);
         (u "top_words", PList []) ]),
     {| net_world := tt;
        net_sent := [history_request demo_client (u "C1") 100] |}).
Proof.
  apply (zero_total_percentages ascii_runtime unit
           (canned (ok_body "messages"
              (PList [ PDict (demo_message "a - the, I") ])))
           demo_client (u "C1") 10 100 start
           {| net_world := tt;
              net_sent := [history_request demo_client (u "C1") 100] |}
           []).
  - reflexivity.
  - reflexivity.
Defined.

Lemma slice_to_all {A} (l : list A) (n : Z) :
  Z.of_nat (List.length l) <= n -> Py.slice_to l n = l.
Proof.
  intros Hlen. unfold Py.slice_to.
  replace (n <? 0) with false.
  - apply firstn_all2. lia.
  - symmetry. apply Z.ltb_ge. lia.
Qed.

(** C3.  For the batch of the two plain messages ["hello hello world"] and
    ["world test"], the analyzer returns [hello 2, world 2, test 1], the tie
    in first-appearance order; the report gives the percentages 40.0, 40.0
    and 20.0, written here by sign, mantissa and exponent, and these add up
    to 100.0. *)
Theorem fixed_batch_ranking
    (rt : runtime) (world : Type)
    (http : request -> world -> exc pyval * world)
    (self : SlackAPIClient) (channel_id : pystr) (top_n message_limit : Z)
    (s s' : net world) (d1 d2 : list (pystr * pyval)) :
  plain_human_message d1 (u "hello hello world") ->
  plain_human_message d2 (u "world test") ->
  get_channel_history rt http self channel_id (Z.min message_limit 100) s
    = (inr (PList [PDict d1; PDict d2]), s') ->
  3 <= top_n ->
  let forty := S754_finite false 5629499534213120 (-47) in
  let twenty := S754_finite false 5629499534213120 (-48) in
  let hundred := S754_finite false 7036874417766400 (-46) in
  analyze_channel_word_frequency rt http self channel_id message_limit s
    = (inr [(u "hello", 2); (u "world", 2); (u "test", 1)], s')
  /\ get_top_words_in_channel rt http self channel_id top_n message_limit s
     = (inr (PDict
          [ (u "success", PBool true);
            (u "channel_id", PStr channel_id);
            (u "analysis_stats",
              PDict [ (u "total_words_analyzed", PInt 5);
                      (u "unique_words", PInt 3);
                      (u "message_limit", PInt message_limit) ]);
            (u "top_words",
              PList [ PDict [ (u "word", PStr (u "hello"));
                              (u "count", PInt 2);
                              (u "percentage", PFloat forty) ];
                      PDict [ (u "word", PStr (u "world"));
                              (u "count", PInt 2);
                              (u "percentage", PFloat forty) ];
                      PDict [ (u "word", PStr (u "test"));
                              (u "count", PInt 1);
                              (u "percentage", PFloat twenty) ] ]) ]),
        s')
  /\ float_is_int forty 40 /\ float_is_int twenty 20
  /\ float_is_int hundred 100
  /\ SFadd 53 1024 (SFadd 53 1024 forty forty) twenty = hundred.
Proof.
  intros Hd1 Hd2 Hfetch Htop forty twenty hundred.
  assert (Hfreq :
    analyze_channel_word_frequency rt http self channel_id message_limit s
    = (inr [(u "hello", 2); (u "world", 2); (u "test", 1)], s')).
  { rewrite (analyze_after_fetch rt world http _ _ _ _ _ _ Hfetch).
    unfold word_frequency_of. simpl.
    rewrite (message_words_plain rt d1 _ Hd1).
    rewrite (message_words_plain rt d2 _ Hd2).
    vm_compute. reflexivity. }
  split; [exact Hfreq|]. split.
  - unfold get_top_words_in_channel, try_except, bind, lift.
    rewrite Hfreq. unfold top_words_report.
    rewrite slice_to_all by (simpl; lia).
    vm_compute. reflexivity.
  - repeat split; vm_compute; reflexivity.
Qed.

Lemma fixed_batch_ranking_witness :
  fst (get_top_words_in_channel ascii_runtime
         (canned (ok_body "messages"
            (PList [ PDict (demo_message "hello hello world");
                     PDict (demo_message "world test") ])))
         demo_client (u "C1") 10 100 start)
  = inr (PDict
      [ (u "success", PBool true);
        (u "channel_id", PStr (u "C1"));
        (u "analysis_stats",
          PDict [ (u "total_words_analyzed", PInt 5);
                  (u "unique_words", PInt 3);
                  (u "message_limit", PInt 100) ]);
        (u "top_words",
          PList [ PDict [ (u "word", PStr (u "hello"));
                          (u "count", PInt 2);
                          (u "percentage",
                            PFloat (S754_finite false 5629499534213120 (-47))) ];
                  PDict [ (u "word", PStr (u "world"));
                          (u "count", PInt 2);
                          (u "percentage",
                            PFloat (S754_finite false 5629499534213120 (-47))) ];
                  PDict [ (u "word", PStr (u "test"));
                          (u "count", PInt 1);
                          (u "percentage",
                            PFloat (S754_finite false 5629499534213120 (-48))) ] ]) ]).
Proof.
  pose proof (fixed_batch_ranking ascii_runtime unit
    (canned (ok_body "messages"
       (PList [ PDict (demo_message "hello hello world");
                PDict (demo_message "world test") ])))
    demo_client (u "C1") 10 100 start
    {| net_world := tt;
       net_sent := [history_request demo_client (u "C1") 100] |}
    (demo_message "hello hello world") (demo_message "world test")) as H.
  destruct H as (_ & Hreport & _).
  - repeat split.
  - repeat split.
  - reflexivity.
  - lia.
  - rewrite Hreport. reflexivity.
Defined.

(* ================================================================== *)
(** ** The user listing *)
(* ================================================================== *)

Section UserFacts.

Variable rt : runtime.
Variable world : Type.
Variable http : request -> world -> exc pyval * world.
Variable slack_token : pystr.




End UserFacts.



(* ================================================================== *)
(** ** The tool boundary *)
(* ================================================================== *)

Section BoundaryFacts.

Variable world : Type.

Lemma success_dict_structured (rest : list (pystr * pyval)) :
  structured_result (PDict ((u "success", PBool true) :: rest)).
Proof.
  eexists. split; [reflexivity|]. exists true. split; [reflexivity|].
  discriminate.
Qed.

(** A failure of the client call reaches the handler with the state the
    call left. *)
Lemma try_except_client_failure {A B} (client : M world A) (k : A -> M world B)
    (handler : pyexc -> M world B) (s s' : net world) (e : pyexc) :
  client s = (inl e, s') ->
  try_except (bind client k) handler s = handler e s'.
Proof.
  intros Hfail. unfold try_except, bind. rewrite Hfail. reflexivity.
Qed.

(** The same with the two outcomes told apart: either the client call
    returned and the dictionary says ['success': True], or the dictionary is
    the failure dictionary with the prefix and some text. *)
Lemma try_except_outcomes {A} (client : M world A) (reshape : A -> exc pyval)
    (prefix : string) (s : net world) :
  (forall a v, reshape a = inr v ->
               exists rest, v = PDict ((u "success", PBool true) :: rest)) ->
  exists d s',
    try_except (bind client (fun a => lift (reshape a)))
               (fun e => ret (failure_result prefix e)) s = (inr (PDict d), s')
    /\ ((Py.dict_get d (u "success") = Some (PBool true)
         /\ exists r, client s = (inr r, s'))
        \/ exists detail,
             d = [ (u "success", PBool false);
                   (u "error", PStr (u prefix ++ detail)) ]).
Proof.
  intros Hreshape. unfold try_except, bind, lift, ret, failure_result.
  destruct (client s) as [[e | a] s1].
  - eexists. exists s1. split; [reflexivity|]. right. now exists (exc_str e).
  - destruct (reshape a) as [e | v] eqn:E.
    + eexists. exists s1. split; [reflexivity|]. right. now exists (exc_str e).
    + destruct (Hreshape a v E) as (rest & ->).
      eexists. exists s1. split; [reflexivity|]. left.
      split; [reflexivity | now exists a].
Qed.

End BoundaryFacts.

(** Every way through a reshaping step that returns, returns a dictionary
    whose first item is ['success': True]. *)
Ltac reshape_returns_success_dict :=
  intros ? ? ; unfold ebind, eret;
  repeat match goal with
         | |- context [match ?r with inl _ => _ | inr _ => _ end] =>
             destruct r
         end;
  intros Hv; try discriminate Hv;
  injection Hv as <-; eexists; reflexivity.

(** C1.  Each of the five tools returns, from every state of the network
    and for every argument, a dictionary and never raises.  The dictionary
    either says ['success': True], and then the client call had returned,
    or it is exactly ['success': False] with an ['error'] string that starts
    with the tool's prefix.  When the client call raises [e], it is that
    failure dictionary, and the error string is the prefix followed by
    [str(e)]. *)
Theorem tool_boundary_contains_failures
    (rt : runtime) (world : Type)
    (http : request -> world -> exc pyval * world)
    (slack_token : pystr) (c : tool_call) (s : net world) :
  (exists d s',
      invoke rt http slack_token c s = (inr (PDict d), s')
      /\ ((Py.dict_get d (u "success") = Some (PBool true)
           /\ exists r, client_call rt http slack_token c s = (inr r, s'))
          \/ exists detail,
               d = [ (u "success", PBool false);
                     (u "error", PStr (u (failure_prefix c) ++ detail)) ]))
  /\ (forall e s',
        client_call rt http slack_token c s = (inl e, s') ->
        invoke rt http slack_token c s
        = (inr (PDict [ (u "success", PBool false);
                        (u "error",
                          PStr (u (failure_prefix c) ++ exc_str e)) ]),
           s')).
Proof.
  split.
  - destruct c; cbn [invoke client_call failure_prefix].
    + apply try_except_outcomes. reshape_returns_success_dict.
    + apply try_except_outcomes. reshape_returns_success_dict.
    + apply try_except_outcomes. reshape_returns_success_dict.
    + apply try_except_outcomes. reshape_returns_success_dict.
    + apply try_except_outcomes. reshape_returns_success_dict.
  - intros e s' Hfail.
    destruct c; cbn [invoke client_call failure_prefix] in *;
      unfold send_slack_message, get_slack_channels, get_slack_channel_history,
        send_slack_direct_message, get_slack_users;
      rewrite (try_except_client_failure world _ _ _ s s' e Hfail);
      reflexivity.
Qed.

Lemma tool_boundary_contains_failures_witness :
  invoke ascii_runtime
    (canned (PDict [ (u "ok", PBool false);
                     (u "error", PStr (u "channel_not_found")) ]))
    (u "xoxb-token") (Call_send_slack_message (u "#nowhere") (u "hi")) start
  = (inr (PDict [ (u "success", PBool false);
                  (u "error",
                    PStr (u "메시지 전송 실패: Slack API 오류: channel_not_found")) ]),
     {| net_world := tt;
        net_sent :=
          [ {| req_verb := HttpPost;
               req_url := u "https://slack.com/api/chat.postMessage";
               req_headers :=
                 [ (u "Authorization", u "Bearer xoxb-token");
                   (u "Content-Type", u "application/json; charset=utf-8") ];
               req_data := Some [ (u "channel", PStr (u "#nowhere"));
                                  (u "text", PStr (u "hi")) ] |} ] |}).
Proof.
  rewrite (proj2 (tool_boundary_contains_failures ascii_runtime unit
                    (canned (PDict [ (u "ok", PBool false);
                                     (u "error", PStr (u "channel_not_found")) ]))
                    (u "xoxb-token")
                    (Call_send_slack_message (u "#nowhere") (u "hi")) start)
                 {| exc_cls := ExceptionC;
                    exc_str := u "Slack API 오류: channel_not_found" |}
                 {| net_world := tt;
                    net_sent :=
                      [ {| req_verb := HttpPost;
                           req_url := u "https://slack.com/api/chat.postMessage";
                           req_headers :=
                             [ (u "Authorization", u "Bearer xoxb-token");
                               (u "Content-Type",
                                 u "application/json; charset=utf-8") ];
                           req_data := Some [ (u "channel", PStr (u "#nowhere"));
                                              (u "text", PStr (u "hi")) ] |} ] |}).
  - vm_compute. reflexivity.
  - vm_compute. reflexivity.
Defined.

(* ================================================================== *)
(** ** Worked examples *)
(* ================================================================== *)

Example u_decodes_hangul : u "가힣" = [44032; 55203]%N.
Proof. reflexivity. Qed.

Example words_of_a_sentence (rt : runtime) :
  _extract_words_from_text rt (PStr (u "Hello, the WORLD a_b the-end x"))
  = inr [u "hello"; u "world"; u "a_b"; u "end"].
Proof. reflexivity. Qed.

Example words_of_whitespace_mix (rt : runtime) :
  spec_tokenize rt [9; 72; 105; 10; 13; 33; 116; 111; 80; 32; 32]%N
  = [u "hi"; u "top"].
Proof. reflexivity. Qed.

Example ties_keep_first_appearance :
  most_common (Counter [u "b"; u "a"; u "a"; u "b"; u "c"])
  = [(u "b", 2); (u "a", 2); (u "c", 1)].
Proof. reflexivity. Qed.

Example later_word_overtakes :
  most_common (Counter [u "x"; u "y"; u "y"; u "z"; u "z"; u "z"])
  = [(u "z", 3); (u "y", 2); (u "x", 1)].
Proof. reflexivity. Qed.

Example zero_count_entry_reports_zero :
  top_words_report (u "C1") 10 100 [(u "ghost", 0)]
  = inr (PDict
      [ (u "success", PBool true);
        (u "channel_id", PStr (u "C1"));
        (u "analysis_stats",
          PDict [ (u "total_words_analyzed", PInt 0);
                  (u "unique_words", PInt 1);
                  (u "message_limit", PInt 100) ]);
        (u "top_words",
          PList [ PDict [ (u "word", PStr (u "ghost"));
                          (u "count", PInt 0);
                          (u "percentage", PInt 0) ] ]) ]).
Proof. reflexivity. Qed.

Example slice_negative : Py.slice_to [1; 2; 3; 4] (-1) = [1; 2; 3].
Proof. reflexivity. Qed.

(** 1/3 of the tokens is reported as 33.33, 7/9 as 77.78. *)
Example percentage_one_third :
  percentage 1 3 = inr (PFloat (S754_finite false 4690780486883082 (-47))).
Proof. vm_compute. reflexivity. Qed.

Example percentage_seven_ninths :
  percentage 7 9 = inr (PFloat (S754_finite false 5473280922138706 (-46))).
Proof. vm_compute. reflexivity. Qed.

Example remote_rejection_surfaces :
  fst (send_slack_message ascii_runtime
         (canned (PDict [ (u "ok", PBool false);
                          (u "error", PStr (u "channel_not_found")) ]))
         (u "xoxb-token") (u "#nowhere") (u "hi") start)
  = inr (PDict [ (u "success", PBool false);
                 (u "error",
                   PStr (u "메시지 전송 실패: Slack API 오류: channel_not_found")) ]).
Proof. reflexivity. Qed.

Example malformed_profile_is_contained :
  fst (get_slack_users ascii_runtime
         (canned (ok_body "members"
            (PList [ PDict [ (u "id", PStr (u "U3")); (u "profile", PNone) ] ])))
         (u "xoxb-token") start)
  = inr (PDict [ (u "success", PBool false);
                 (u "error",
                   PStr (u "사용자 목록 조회 실패: 'NoneType' object has no attribute 'get'")) ]).
Proof. reflexivity. Qed.

(* ================================================================== *)
(** ** Counting and ranking *)
(* ================================================================== *)

Lemma pystr_eqb_sym (a b : pystr) : PyStr.eqb a b = PyStr.eqb b a.
Proof.
  destruct (PyStr.eqb a b) eqn:E.
  - apply pystr_eqb_eq in E. subst. symmetry. apply pystr_eqb_refl.
  - destruct (PyStr.eqb b a) eqn:E'; [|reflexivity].
    apply pystr_eqb_eq in E'. subst. rewrite pystr_eqb_refl in E.
    discriminate.
Qed.

Lemma occurrences_cons (w x : pystr) (words : list pystr) :
  occurrences w (x :: words)
  = (if PyStr.eqb w x then 1 else 0) + occurrences w words.
Proof.
  unfold occurrences. cbn [filter].
  destruct (PyStr.eqb w x); cbn [List.length]; lia.
Qed.

Lemma occurrences_without (w k : pystr) (words : list pystr) :
  PyStr.eqb w k = false ->
  occurrences k (filter (fun x => negb (PyStr.eqb w x)) words)
  = occurrences k words.
Proof.
  intros Hwk. induction words as [|x rest IH]; [reflexivity|].
  simpl. destruct (PyStr.eqb w x) eqn:Ewx; simpl.
  - rewrite occurrences_cons, IH.
    apply pystr_eqb_eq in Ewx. subst x.
    rewrite (pystr_eqb_sym k w), Hwk. reflexivity.
  - rewrite !occurrences_cons, IH. reflexivity.
Qed.

(** Counting on with a word that is already at the head of the counter. *)
Lemma count_on_from_head (words : list pystr) :
  forall (w : pystr) (n : Z) (c : list (pystr * Z)),
    fold_left counter_incr words ((w, n) :: c)
    = (w, n + occurrences w words)
      :: fold_left counter_incr
           (filter (fun x => negb (PyStr.eqb w x)) words) c.
Proof.
  induction words as [|x rest IH]; intros w n c.
  - simpl. unfold occurrences. simpl. rewrite Z.add_0_r. reflexivity.
  - cbn [fold_left counter_incr filter]. rewrite occurrences_cons.
    destruct (PyStr.eqb w x) eqn:E; cbn [negb].
    + rewrite IH. replace (n + 1 + occurrences w rest)
        with (n + (1 + occurrences w rest)) by lia. reflexivity.
    + cbn [fold_left]. rewrite (IH w n (counter_incr c x)).
      rewrite Z.add_0_l. reflexivity.
Qed.

Lemma Counter_cons (w : pystr) (words : list pystr) :
  Counter (w :: words)
  = (w, occurrences w (w :: words))
    :: Counter (filter (fun x => negb (PyStr.eqb w x)) words).
Proof.
  unfold Counter. simpl. rewrite count_on_from_head.
  rewrite occurrences_cons, pystr_eqb_refl. reflexivity.
Qed.

Lemma filter_filter_comm {A} (p q : A -> bool) (l : list A) :
  filter p (filter q l) = filter q (filter p l).
Proof.
  induction l as [|x l IH]; [reflexivity|].
  simpl. destruct (p x) eqn:Ep, (q x) eqn:Eq; simpl;
    rewrite ?Ep, ?Eq, IH; reflexivity.
Qed.

Lemma filter_absorbs {A} (p q : A -> bool) (l : list A) :
  (forall x, p x = true -> q x = true) ->
  filter q (filter p l) = filter p l.
Proof.
  intros Hpq. induction l as [|x l IH]; [reflexivity|].
  simpl. destruct (p x) eqn:Ep; simpl; [|exact IH].
  rewrite (Hpq x Ep), IH. reflexivity.
Qed.

Lemma first_appearances_filter (p : pystr -> bool) (words : list pystr) :
  first_appearances (filter p words) = filter p (first_appearances words).
Proof.
  induction words as [|w rest IH]; [reflexivity|].
  simpl. destruct (p w) eqn:Ep; simpl.
  - rewrite IH, filter_filter_comm. reflexivity.
  - rewrite IH. rewrite filter_filter_comm. symmetry.
    apply filter_absorbs.
    intros x Hx. destruct (PyStr.eqb w x) eqn:E; [|reflexivity].
    apply pystr_eqb_eq in E. subst x. congruence.
Qed.

(** The counter built by [Counter(all_words)]: one entry per distinct
    word, in order of first appearance, with its number of occurrences. *)
Lemma Counter_entries (words : list pystr) :
  Counter words
  = map (fun w => (w, occurrences w words)) (first_appearances words).
Proof.
  remember (List.length words) as n eqn:Hn.
  revert words Hn.
  induction n as [n IH] using (well_founded_induction Wf_nat.lt_wf).
  intros [|w rest] Hn; [reflexivity|].
  rewrite Counter_cons. simpl first_appearances. simpl map. f_equal.
  rewrite (IH (List.length (filter (fun x => negb (PyStr.eqb w x)) rest))).
  - rewrite first_appearances_filter.
    apply map_ext_in. intros k Hk.
    apply filter_In in Hk as [_ Hk]. apply negb_true_iff in Hk.
    rewrite occurrences_without by exact Hk.
    rewrite occurrences_cons, (pystr_eqb_sym k w), Hk. reflexivity.
  - subst n. simpl.
    pose proof (filter_length_le (fun x => negb (PyStr.eqb w x)) rest). lia.
  - reflexivity.
Qed.

Lemma first_appearances_In (w : pystr) (words : list pystr) :
  In w (first_appearances words) <-> In w words.
Proof.
  induction words as [|x rest IH]; simpl; [tauto|].
  rewrite filter_In, IH. split.
  - intros [H | [H _]]; auto.
  - intros [H | H]; [now left|].
    destruct (PyStr.eqb x w) eqn:E.
    + left. now apply pystr_eqb_eq.
    + right. split; [assumption | reflexivity].
Qed.

Lemma NoDup_filter_keeps {A} (p : A -> bool) (l : list A) :
  NoDup l -> NoDup (filter p l).
Proof.
  induction 1 as [|x l Hx _ IH]; simpl; [constructor|].
  destruct (p x); [|exact IH].
  constructor; [|exact IH].
  intros Hin. apply filter_In in Hin as [Hin _]. contradiction.
Qed.

Lemma first_appearances_NoDup (words : list pystr) :
  NoDup (first_appearances words).
Proof.
  induction words as [|w rest IH]; simpl; constructor.
  - intros Hin. apply filter_In in Hin as [_ Hin].
    rewrite pystr_eqb_refl in Hin. discriminate.
  - now apply NoDup_filter_keeps.
Qed.

Lemma occurrences_positive (w : pystr) (words : list pystr) :
  In w words -> 1 <= occurrences w words.
Proof.
  intros Hin. induction words as [|x rest IH]; [contradiction|].
  rewrite occurrences_cons. destruct Hin as [-> | Hin].
  - rewrite pystr_eqb_refl. unfold occurrences. lia.
  - specialize (IH Hin). destruct (PyStr.eqb w x); lia.
Qed.

(** X1.  The counter holds one entry for each distinct word, in order of
    first appearance, whose count is the number of occurrences of the word;
    so words are not repeated and every count is at least 1. *)
Theorem counter_counts_first_appearances (words : list pystr) :
  Counter words
  = map (fun w => (w, occurrences w words)) (first_appearances words)
  /\ NoDup (map fst (Counter words))
  /\ (forall w, In w (map fst (Counter words)) <-> In w words)
  /\ Forall (fun wc => 1 <= snd wc) (Counter words).
Proof.
  assert (Hkeys : map fst (Counter words) = first_appearances words).
  { rewrite Counter_entries, map_map. simpl. apply map_id. }
  repeat split.
  - apply Counter_entries.
  - rewrite Hkeys. apply first_appearances_NoDup.
  - rewrite Hkeys. apply first_appearances_In.
  - rewrite Hkeys. apply first_appearances_In.
  - rewrite Counter_entries. apply Forall_forall. intros wc Hin.
    apply in_map_iff in Hin as (w & <- & Hw). simpl.
    apply occurrences_positive. now apply first_appearances_In.
Qed.

Lemma insert_by_count_perm (x : pystr * Z) (sorted : list (pystr * Z)) :
  Permutation (insert_by_count x sorted) (x :: sorted).
Proof.
  induction sorted as [|y rest IH]; simpl; [reflexivity|].
  destruct (snd x <? snd y); [|reflexivity].
  rewrite IH. apply perm_swap.
Qed.

Lemma most_common_perm (c : list (pystr * Z)) :
  Permutation (most_common c) c.
Proof.
  induction c as [|x c IH]; simpl; [constructor|].
  rewrite insert_by_count_perm. now constructor.
Qed.

Lemma insert_by_count_sorted (x : pystr * Z) (sorted : list (pystr * Z)) :
  StronglySorted count_ge sorted ->
  StronglySorted count_ge (insert_by_count x sorted).
Proof.
  induction 1 as [|y rest Hrest IH Hy]; simpl.
  - constructor; constructor.
  - destruct (snd x <? snd y) eqn:E.
    + constructor; [exact IH|].
      apply Forall_forall. intros z Hz.
      apply (Permutation_in _ (insert_by_count_perm x rest)) in Hz.
      destruct Hz as [<- | Hz].
      * unfold count_ge. apply Z.ltb_lt in E. lia.
      * rewrite Forall_forall in Hy. now apply Hy.
    + apply Z.ltb_ge in E.
      constructor; [constructor; assumption|].
      constructor; [exact E|].
      eapply Forall_impl; [|exact Hy].
      intros z Hz. unfold count_ge in *. lia.
Qed.

Lemma most_common_sorted (c : list (pystr * Z)) :
  StronglySorted count_ge (most_common c).
Proof.
  induction c as [|x c IH]; simpl; [constructor|].
  now apply insert_by_count_sorted.
Qed.

(** Inserting leaves the items of every other count where they were and
    puts the new item in front of those of its own count. *)
Lemma insert_by_count_class (n : Z) (x : pystr * Z)
    (sorted : list (pystr * Z)) :
  filter (fun wc => snd wc =? n) (insert_by_count x sorted)
  = filter (fun wc => snd wc =? n) (x :: sorted).
Proof.
  induction sorted as [|y rest IH]; [reflexivity|].
  cbn [insert_by_count]. destruct (snd x <? snd y) eqn:E; [|reflexivity].
  apply Z.ltb_lt in E. cbn [filter] in *. rewrite IH.
  destruct (snd x =? n) eqn:Ex, (snd y =? n) eqn:Ey; try reflexivity.
  apply Z.eqb_eq in Ex, Ey. lia.
Qed.

Lemma most_common_class (n : Z) (c : list (pystr * Z)) :
  filter (fun wc => snd wc =? n) (most_common c)
  = filter (fun wc => snd wc =? n) c.
Proof.
  induction c as [|x c IH]; [reflexivity|].
  cbn [most_common fold_right]. rewrite insert_by_count_class.
  cbn [filter]. fold (most_common c). rewrite IH. reflexivity.
Qed.

Lemma sum_counts_from (c : list (pystr * Z)) (acc : Z) :
  fold_left (fun a wc => a + snd wc) c acc
  = acc + fold_right (fun wc a => snd wc + a) 0 c.
Proof.
  revert acc. induction c as [|x c IH]; intros acc; simpl; [lia|].
  rewrite IH. lia.
Qed.

Lemma sum_counts_perm (c c' : list (pystr * Z)) :
  Permutation c c' -> sum_counts c = sum_counts c'.
Proof.
  unfold sum_counts. rewrite !sum_counts_from.
  induction 1; simpl; lia.
Qed.

(** X2.  The ranking is a rearrangement of the counter in which counts
    never increase, and it is stable: the items of any one count keep the
    order they had in the counter. *)
Theorem most_common_sorted_stable (c : list (pystr * Z)) :
  Permutation (most_common c) c
  /\ StronglySorted count_ge (most_common c)
  /\ forall n, filter (fun wc => snd wc =? n) (most_common c)
               = filter (fun wc => snd wc =? n) c.
Proof.
  split; [apply most_common_perm|].
  split; [apply most_common_sorted|].
  intros n. apply most_common_class.
Qed.

(** X3.  In the ranking of a list of words, the words that occur exactly
    [n] times appear in the order of their first appearance in the list:
    ties are broken by first appearance. *)
Theorem ties_ordered_by_first_appearance (words : list pystr) (n : Z) :
  map fst (filter (fun wc => snd wc =? n) (most_common (Counter words)))
  = filter (fun w => occurrences w words =? n) (first_appearances words).
Proof.
  rewrite most_common_class, Counter_entries.
  induction (first_appearances words) as [|w rest IH]; [reflexivity|].
  simpl. destruct (occurrences w words =? n); simpl; rewrite IH; reflexivity.
Qed.

Lemma sum_counts_cons (x : pystr * Z) (c : list (pystr * Z)) :
  sum_counts (x :: c) = snd x + sum_counts c.
Proof.
  unfold sum_counts. cbn [fold_left]. rewrite !sum_counts_from. lia.
Qed.

(** The counts of a counter add up to the number of words counted. *)
Lemma sum_counts_Counter (words : list pystr) :
  sum_counts (Counter words) = Z.of_nat (List.length words).
Proof.
  remember (List.length words) as n eqn:Hn.
  revert words Hn.
  induction n as [n IH] using (well_founded_induction Wf_nat.lt_wf).
  intros [|w rest] Hn; [subst; reflexivity|].
  rewrite Counter_cons, sum_counts_cons. cbn [snd].
  pose proof (filter_length (PyStr.eqb w) rest) as Hsplit.
  rewrite (IH (List.length (filter (fun x => negb (PyStr.eqb w x)) rest)))
    by (subst n; simpl; lia || reflexivity).
  rewrite occurrences_cons, pystr_eqb_refl. unfold occurrences.
  subst n. cbn [List.length]. lia.
Qed.

(* ================================================================== *)
(** ** What the tokenizer returns *)
(* ================================================================== *)

Section SplitFacts.

Variable ucd : unicode_db.

(** [split] drops whitespace and nothing else. *)
Lemma split_from_concat (s cur : pystr) :
  List.concat (split_from ucd cur s)
  = rev cur ++ filter (fun c => negb (isspace ucd c)) s.
Proof.
  revert cur. induction s as [|c rest IH]; intros cur.
  - simpl. destruct cur; simpl; rewrite ?app_nil_r; reflexivity.
  - cbn [split_from filter]. destruct (isspace ucd c); cbn [negb].
    + destruct cur as [|x cur'].
      * rewrite IH. reflexivity.
      * cbn [List.concat]. rewrite IH. reflexivity.
    + rewrite IH. cbn [rev]. rewrite <- app_assoc. reflexivity.
Qed.

(** The words [split] returns are non-empty and free of whitespace. *)
Lemma split_from_words (s cur : pystr) :
  Forall (fun c => isspace ucd c = false) cur ->
  Forall (fun w => w <> [] /\ Forall (fun c => isspace ucd c = false) w)
         (split_from ucd cur s).
Proof.
  revert cur. induction s as [|c rest IH]; intros cur Hcur.
  - simpl. destruct cur as [|x cur']; constructor; [|constructor].
    split.
    + intros H. apply (f_equal (@List.length _)) in H.
      rewrite length_rev in H. discriminate.
    + apply Forall_rev. exact Hcur.
  - cbn [split_from]. destruct (isspace ucd c) eqn:E.
    + destruct cur as [|x cur'].
      * apply IH. constructor.
      * constructor; [|apply IH; constructor].
        split.
        -- intros H. apply (f_equal (@List.length _)) in H.
           rewrite length_rev in H. discriminate.
        -- apply Forall_rev. exact Hcur.
    + apply IH. constructor; assumption.
Qed.

End SplitFacts.

(** X4.  Every word [_extract_words_from_text] returns has at least two
    characters, is not a stop-word and holds no whitespace, whatever the
    text was. *)
Theorem extracted_words_are_clean (rt : runtime) (text : pyval)
    (words : list pystr) :
  _extract_words_from_text rt text = inr words ->
  Forall (fun w => 2 <= PyStr.len w
                   /\ ~ In w stop_words
                   /\ Forall (fun c => isspace (rt_ucd rt) c = false) w)
         words.
Proof.
  unfold _extract_words_from_text.
  destruct (negb (Py.truthy text)).
  - intros H. injection H as <-. constructor.
  - destruct text; try discriminate.
    intros H. injection H as <-.
    apply Forall_forall. intros w Hw.
    apply filter_In in Hw as [Hsplit Hkeep].
    unfold keep_word in Hkeep. apply andb_true_iff in Hkeep as [Hlen Hstop].
    repeat split.
    + now apply Z.leb_le.
    + intros Hin. apply is_stop_word_In in Hin. rewrite Hin in Hstop.
      discriminate.
    + pose proof (split_from_words (rt_ucd rt)
                    (lower (rt_ucd rt)
                       (collapse_whitespace (rt_ucd rt)
                          (map (fun c => if kept_by_pattern rt c
                                         then c else cp " ") s)))
                    [] (Forall_nil _)) as Hall.
      rewrite Forall_forall in Hall. now apply (Hall w).
Qed.

Lemma extracted_words_are_clean_witness :
  Forall (fun w => 2 <= PyStr.len w
                   /\ ~ In w stop_words
                   /\ Forall (fun c => isspace (rt_ucd ascii_runtime) c = false) w)
         [u "hello"; u "world"; u "a_b"; u "end"].
Proof.
  apply (extracted_words_are_clean ascii_runtime
           (PStr (u "Hello, the WORLD a_b the-end x"))).
  reflexivity.
Defined.

(* ================================================================== *)
(** ** The frequency table of a batch *)
(* ================================================================== *)

Section TableFacts.

Variable rt : runtime.

Lemma collect_words_from (messages : list pyval) (all_words : list pystr) :
  collect_words rt messages all_words
  = match collect_words rt messages [] with
    | inl e => inl e
    | inr words => inr (all_words ++ words)
    end.
Proof.
  revert all_words. induction messages as [|m rest IH]; intros all_words.
  - simpl. rewrite app_nil_r. reflexivity.
  - simpl. destruct (message_words rt m) as [e | ws]; simpl; [reflexivity|].
    rewrite (IH (all_words ++ ws)), (IH ws).
    destruct (collect_words rt rest []) as [e | words]; [reflexivity|].
    rewrite app_assoc. reflexivity.
Qed.

(** When every message yields its words, the loop gathers them in order. *)
Lemma collect_words_concat (messages : list pyval) (wss : list (list pystr)) :
  Forall2 (fun m ws => message_words rt m = inr ws) messages wss ->
  collect_words rt messages [] = inr (List.concat wss).
Proof.
  induction 1 as [|m ws rest wss' Hm _ IH]; [reflexivity|].
  simpl. rewrite Hm. simpl. rewrite collect_words_from, IH. reflexivity.
Qed.

(** The first message that raises ends the loop with its exception. *)
Lemma collect_words_abort (before after : list pyval)
    (wss : list (list pystr)) (m : pyval) (e : pyexc) :
  Forall2 (fun m ws => message_words rt m = inr ws) before wss ->
  message_words rt m = inl e ->
  collect_words rt (before ++ m :: after) [] = inl e.
Proof.
  intros Hbefore Hm.
  induction Hbefore as [|m0 ws rest wss' Hm0 _ IH]; simpl.
  - rewrite Hm. reflexivity.
  - rewrite Hm0. simpl. rewrite collect_words_from, IH. reflexivity.
Qed.

Lemma message_words_clean (m : pyval) (words : list pystr) :
  message_words rt m = inr words ->
  Forall (fun w => 2 <= PyStr.len w /\ ~ In w stop_words) words.
Proof.
  assert (Hext : forall text ws,
             _extract_words_from_text rt text = inr ws ->
             Forall (fun w => 2 <= PyStr.len w /\ ~ In w stop_words) ws).
  { intros text ws Hws.
    unfold _extract_words_from_text in Hws.
    destruct (negb (Py.truthy text)).
    - injection Hws as <-. constructor.
    - destruct text; try discriminate. injection Hws as <-.
      apply Forall_forall. intros w Hw.
      apply filter_In in Hw as [_ Hkeep]. unfold keep_word in Hkeep.
      apply andb_true_iff in Hkeep as [Hlen Hstop]. split.
      + now apply Z.leb_le.
      + intros Hin. apply is_stop_word_In in Hin. rewrite Hin in Hstop.
        discriminate. }
  unfold message_words, ebind, eret.
  destruct (Py.contains (u "text") m) as [e | has_text]; [discriminate|].
  destruct (negb has_text); [intros H; injection H as <-; constructor|].
  destruct (Py.get m (u "type") PNone) as [e | type]; [discriminate|].
  destruct (negb (Py.eq_str type (u "message")));
    [intros H; injection H as <-; constructor|].
  destruct (Py.get m (u "bot_id") PNone) as [e | bot]; [discriminate|].
  destruct (Py.truthy bot); [intros H; injection H as <-; constructor|].
  destruct (Py.get m (u "subtype") PNone) as [e | sub]; [discriminate|].
  destruct (Py.truthy sub); [intros H; injection H as <-; constructor|].
  destruct (Py.getitem m (u "text")) as [e | text]; [discriminate|].
  apply Hext.
Qed.

Lemma collect_words_clean (messages : list pyval) (words : list pystr) :
  collect_words rt messages [] = inr words ->
  Forall (fun w => 2 <= PyStr.len w /\ ~ In w stop_words) words.
Proof.
  revert words. induction messages as [|m rest IH]; intros words.
  - simpl. intros H. injection H as <-. constructor.
  - simpl. destruct (message_words rt m) as [e | ws] eqn:Em; simpl;
      [discriminate|].
    rewrite collect_words_from.
    destruct (collect_words rt rest []) as [e | more]; [discriminate|].
    intros H. injection H as <-.
    apply Forall_app. split.
    + simpl. eapply message_words_clean. exact Em.
    + now apply IH.
Qed.

(** A table the analysis returns is the ranking of the counter of the
    words the loop gathered. *)
Lemma word_frequency_returns (messages : pyval) (wf : list (pystr * Z)) :
  word_frequency_of rt messages = inr wf ->
  exists items words,
    Py.iter messages = inr items /\
    collect_words rt items [] = inr words /\
    wf = most_common (Counter words).
Proof.
  unfold word_frequency_of, ebind, eret.
  destruct (Py.iter messages) as [e | items]; [discriminate|].
  destruct (collect_words rt items []) as [e | words] eqn:Ewords;
    [discriminate|].
  intros H. injection H as <-. exists items, words. repeat split.
  exact Ewords.
Qed.

Variable world : Type.
Variable http : request -> world -> exc pyval * world.

Lemma analyze_returns self channel_id limit (s s' : net world) wf :
  analyze_channel_word_frequency rt http self channel_id limit s
    = (inr wf, s') ->
  exists messages, word_frequency_of rt messages = inr wf.
Proof.
  unfold analyze_channel_word_frequency, bind, lift.
  destruct (get_channel_history rt http self channel_id _ s)
    as [[e | messages] s1]; [discriminate|].
  intros H. injection H as H _. now exists messages.
Qed.

End TableFacts.

(** X5.  Whatever the service answers, a table returned by
    [analyze_channel_word_frequency] is ranked by non-increasing count, lists
    no word twice, and each of its words has a count of at least 1, has at
    least two characters and is not a stop-word. *)
Theorem analysis_table_invariants
    (rt : runtime) (world : Type)
    (http : request -> world -> exc pyval * world)
    (self : SlackAPIClient) (channel_id : pystr) (limit : Z)
    (s s' : net world) (wf : list (pystr * Z)) :
  analyze_channel_word_frequency rt http self channel_id limit s
    = (inr wf, s') ->
  StronglySorted count_ge wf
  /\ NoDup (map fst wf)
  /\ Forall (fun wc => 1 <= snd wc
                       /\ 2 <= PyStr.len (fst wc)
                       /\ ~ In (fst wc) stop_words) wf.
Proof.
  intros Hrun.
  apply analyze_returns in Hrun as (messages & Hfreq).
  apply word_frequency_returns in Hfreq as (items & words & _ & Hwords & ->).
  pose proof (most_common_perm (Counter words)) as Hperm.
  pose proof (collect_words_clean rt items words Hwords) as Hclean.
  split; [apply most_common_sorted|]. split.
  - apply (Permutation_NoDup (l := map fst (Counter words))).
    + apply Permutation_map. symmetry. exact Hperm.
    + rewrite Counter_entries, map_map. simpl. rewrite map_id.
      apply first_appearances_NoDup.
  - apply Forall_forall. intros wc Hin.
    apply (Permutation_in _ Hperm) in Hin.
    rewrite Counter_entries in Hin.
    apply in_map_iff in Hin as (w & <- & Hw). simpl.
    apply (proj1 (first_appearances_In w words)) in Hw.
    rewrite Forall_forall in Hclean. destruct (Hclean w Hw) as [Hlen Hstop].
    repeat split; try assumption.
    now apply occurrences_positive.
Qed.

Lemma analysis_table_invariants_witness :
  StronglySorted count_ge [(u "cat", 2); (u "mat", 1)]
  /\ NoDup (map fst [(u "cat", 2); (u "mat", 1)])
  /\ Forall (fun wc => 1 <= snd wc
                       /\ 2 <= PyStr.len (fst wc)
                       /\ ~ In (fst wc) stop_words)
            [(u "cat", 2); (u "mat", 1)].
Proof.
  apply (analysis_table_invariants ascii_runtime unit
           (canned (ok_body "messages"
              (PList [ PDict (demo_message "The cat is on a mat");
                       PDict (demo_message "a CAT!") ])))
           demo_client (u "C1") 100 start
           {| net_world := tt;
              net_sent := [history_request demo_client (u "C1") 100] |}).
  reflexivity.
Defined.

(** X6.  The analysis of a batch is the ranking of one counter over the
    words of all its messages taken in order; and the first message whose
    words cannot be extracted ends the analysis with its exception, so that
    no table is produced. *)
Theorem batch_accumulates_in_order
    (rt : runtime) (messages : list pyval) (wss : list (list pystr)) :
  Forall2 (fun m ws => message_words rt m = inr ws) messages wss ->
  word_frequency_of rt (PList messages)
    = inr (most_common (Counter (List.concat wss)))
  /\ forall m e after,
       message_words rt m = inl e ->
       word_frequency_of rt (PList (messages ++ m :: after)) = inl e.
Proof.
  intros Hall. split.
  - unfold word_frequency_of. simpl.
    rewrite (collect_words_concat rt messages wss Hall). reflexivity.
  - intros m e after Hm. unfold word_frequency_of. simpl.
    rewrite (collect_words_abort rt messages after wss m e Hall Hm).
    reflexivity.
Qed.

Lemma batch_accumulates_in_order_witness :
  word_frequency_of ascii_runtime
    (PList [ PDict (demo_message "alpha beta");
             PDict (demo_message "beta gamma") ])
  = inr (most_common (Counter [u "alpha"; u "beta"; u "beta"; u "gamma"])).
Proof.
  apply (batch_accumulates_in_order ascii_runtime
           [ PDict (demo_message "alpha beta");
             PDict (demo_message "beta gamma") ]
           [ [u "alpha"; u "beta"]; [u "beta"; u "gamma"] ]).
  apply Forall2_cons; [reflexivity|].
  apply Forall2_cons; [reflexivity|].
  apply Forall2_nil.
Defined.

(* ================================================================== *)
(** ** The report of [get_top_words_in_channel] *)
(* ================================================================== *)

Lemma top_word_entry_returns (total : Z) (wc : pystr * Z) (entry : pyval) :
  top_word_entry total wc = inr entry ->
  exists pct, entry = PDict [ (u "word", PStr (fst wc));
                              (u "count", PInt (snd wc));
                              (u "percentage", pct) ].
Proof.
  destruct wc as [word count]. unfold top_word_entry, ebind, eret.
  destruct (percentage count total) as [e | pct]; [discriminate|].
  intros H. injection H as <-. now exists pct.
Qed.

Lemma emap_entries (total : Z) (top_words : list (pystr * Z)) :
  forall entries,
    emap (top_word_entry total) top_words = inr entries ->
    Forall2 (fun wc entry =>
               exists pct, entry = PDict [ (u "word", PStr (fst wc));
                                           (u "count", PInt (snd wc));
                                           (u "percentage", pct) ])
            top_words entries.
Proof.
  induction top_words as [|wc rest IH]; intros entries; simpl.
  - intros H. injection H as <-. constructor.
  - destruct (top_word_entry total wc) as [e | entry] eqn:E; [discriminate|].
    destruct (emap (top_word_entry total) rest) as [e | more];
      [discriminate|].
    intros H. injection H as <-. constructor.
    + now apply (top_word_entry_returns total).
    + now apply IH.
Qed.

Lemma slice_to_length {A} (l : list A) (n : Z) :
  Z.of_nat (List.length (Py.slice_to l n))
  = if n <? 0 then Z.max 0 (Z.of_nat (List.length l) + n)
    else Z.min n (Z.of_nat (List.length l)).
Proof.
  unfold Py.slice_to. destruct (n <? 0) eqn:E; rewrite length_firstn.
  - apply Z.ltb_lt in E. lia.
  - apply Z.ltb_ge in E. lia.
Qed.

Lemma top_words_report_returns (channel_id : pystr) (top_n message_limit : Z)
    (word_frequency : list (pystr * Z)) (v : pyval) :
  top_words_report channel_id top_n message_limit word_frequency = inr v ->
  exists entries,
    v = PDict
          [ (u "success", PBool true);
            (u "channel_id", PStr channel_id);
            (u "analysis_stats",
              PDict [ (u "total_words_analyzed", PInt (sum_counts word_frequency));
                      (u "unique_words", py_len word_frequency);
                      (u "message_limit", PInt message_limit) ]);
            (u "top_words", PList entries) ]
    /\ Forall2 (fun wc entry =>
                  exists pct, entry = PDict [ (u "word", PStr (fst wc));
                                              (u "count", PInt (snd wc));
                                              (u "percentage", pct) ])
               (Py.slice_to word_frequency top_n) entries.
Proof.
  unfold top_words_report, ebind, eret.
  destruct (emap _ _) as [e | entries] eqn:E; [discriminate|].
  intros H. injection H as <-. exists entries. split; [reflexivity|].
  now apply (emap_entries (sum_counts word_frequency)).
Qed.

(** X7.  In a report built from the words of a batch, the statistics say
    how many words were counted and how many distinct words there are, and
    the caller's [message_limit] is echoed as given. *)
Theorem report_totals
    (channel_id : pystr) (top_n message_limit : Z)
    (words : list pystr) (v : pyval) :
  top_words_report channel_id top_n message_limit
    (most_common (Counter words)) = inr v ->
  exists entries,
    v = PDict
          [ (u "success", PBool true);
            (u "channel_id", PStr channel_id);
            (u "analysis_stats",
              PDict [ (u "total_words_analyzed",
                        PInt (Z.of_nat (List.length words)));
                      (u "unique_words",
                        PInt (Z.of_nat (List.length (first_appearances words))));
                      (u "message_limit", PInt message_limit) ]);
            (u "top_words", PList entries) ].
Proof.
  intros Hreport.
  apply top_words_report_returns in Hreport as (entries & -> & _).
  exists entries.
  rewrite (sum_counts_perm _ _ (most_common_perm (Counter words))).
  rewrite sum_counts_Counter. unfold py_len.
  rewrite (Permutation_length (most_common_perm (Counter words))).
  rewrite Counter_entries, length_map. reflexivity.
Qed.

Lemma report_totals_witness :
  exists entries,
    PDict
      [ (u "success", PBool true);
        (u "channel_id", PStr (u "C1"));
        (u "analysis_stats",
          PDict [ (u "total_words_analyzed", PInt 4);
                  (u "unique_words", PInt 3);
                  (u "message_limit", PInt 100) ]);
        (u "top_words",
          PList [ PDict [ (u "word", PStr (u "beta"));
                          (u "count", PInt 2);
                          (u "percentage", PFloat (PyFloat.of_int 50)) ] ]) ]
    = PDict
        [ (u "success", PBool true);
          (u "channel_id", PStr (u "C1"));
          (u "analysis_stats",
            PDict [ (u "total_words_analyzed",
                      PInt (Z.of_nat (List.length
                              [u "alpha"; u "beta"; u "beta"; u "gamma"])));
                    (u "unique_words",
                      PInt (Z.of_nat (List.length
                              (first_appearances
                                 [u "alpha"; u "beta"; u "beta"; u "gamma"]))));
                    (u "message_limit", PInt 100) ]);
          (u "top_words", PList entries) ].
Proof.
  apply (report_totals (u "C1") 1 100
           [u "alpha"; u "beta"; u "beta"; u "gamma"]).
  vm_compute. reflexivity.
Defined.

(** X8.  A report lists the first [top_n] rows of the ranking, in ranking
    order, each with its word and count; when the ranking is shorter it
    lists all of it, and a negative [top_n] is not refused but drops that
    many rows from the end. *)
Theorem report_lists_top_n
    (channel_id : pystr) (top_n message_limit : Z)
    (word_frequency : list (pystr * Z)) (v : pyval) :
  top_words_report channel_id top_n message_limit word_frequency = inr v ->
  exists entries,
    Py.get v (u "top_words") PNone = inr (PList entries)
    /\ Forall2 (fun wc entry =>
                  exists pct, entry = PDict [ (u "word", PStr (fst wc));
                                              (u "count", PInt (snd wc));
                                              (u "percentage", pct) ])
               (Py.slice_to word_frequency top_n) entries
    /\ (exists dropped, word_frequency = Py.slice_to word_frequency top_n ++ dropped)
    /\ Z.of_nat (List.length entries)
       = if top_n <? 0
         then Z.max 0 (Z.of_nat (List.length word_frequency) + top_n)
         else Z.min top_n (Z.of_nat (List.length word_frequency)).
Proof.
  intros Hreport.
  apply top_words_report_returns in Hreport as (entries & -> & Hentries).
  exists entries. split; [reflexivity|]. split; [exact Hentries|]. split.
  - unfold Py.slice_to.
    destruct (top_n <? 0); eexists; symmetry; apply firstn_skipn.
  - rewrite <- (Forall2_length Hentries). apply slice_to_length.
Qed.

Lemma report_lists_top_n_witness :
  exists entries,
    Py.get
      (PDict
         [ (u "success", PBool true);
           (u "channel_id", PStr (u "C1"));
           (u "analysis_stats",
             PDict [ (u "total_words_analyzed", PInt 4);
                     (u "unique_words", PInt 3);
                     (u "message_limit", PInt 100) ]);
           (u "top_words",
             PList [ PDict [ (u "word", PStr (u "beta"));
                             (u "count", PInt 2);
                             (u "percentage", PFloat (PyFloat.of_int 50)) ];
                     PDict [ (u "word", PStr (u "alpha"));
                             (u "count", PInt 1);
                             (u "percentage", PFloat (PyFloat.of_int 25)) ] ]) ])
      (u "top_words") PNone = inr (PList entries)
    /\ Z.of_nat (List.length entries) = 2.
Proof.
  destruct (report_lists_top_n (u "C1") (-1) 100
              [(u "beta", 2); (u "alpha", 1); (u "gamma", 1)]
              (PDict
                 [ (u "success", PBool true);
                   (u "channel_id", PStr (u "C1"));
                   (u "analysis_stats",
                     PDict [ (u "total_words_analyzed", PInt 4);
                             (u "unique_words", PInt 3);
                             (u "message_limit", PInt 100) ]);
                   (u "top_words",
                     PList [ PDict [ (u "word", PStr (u "beta"));
                                     (u "count", PInt 2);
                                     (u "percentage", PFloat (PyFloat.of_int 50)) ];
                             PDict [ (u "word", PStr (u "alpha"));
                                     (u "count", PInt 1);
                                     (u "percentage", PFloat (PyFloat.of_int 25)) ] ]) ]))
    as (entries & Hget & _ & _ & Hlen).
  - vm_compute. reflexivity.
  - exists entries. split; [exact Hget | exact Hlen].
Defined.

(* ================================================================== *)
(** ** One round trip *)
(* ================================================================== *)

Section RoundTripFacts.

Variable rt : runtime.
Variable world : Type.
Variable http : request -> world -> exc pyval * world.

(** [_make_request] in one step: the request goes out once, and the answer
    of the network decides the outcome. *)
Lemma make_request_step self endpoint method data (s : net world) :
  _make_request rt http self endpoint method data s
  = (match fst (http (api_request self endpoint method data) (net_world s)) with
     | inl t =>
         if is_RequestException t
         then inl (plain_exception "HTTP 요청 실패: " (exc_str t))
         else if is_JSONDecodeError t
         then inl (plain_exception "JSON 파싱 실패: " (exc_str t))
         else inl t
     | inr (PDict body) =>
         if Py.truthy (ok_flag body) then inr (PDict body)
         else inl (plain_exception "Slack API 오류: "
                     (format_value rt (error_code body)))
     | inr other => Py.no_attribute other "get"
     end,
     {| net_world := snd (http (api_request self endpoint method data)
                               (net_world s));
        net_sent := net_sent s ++ [api_request self endpoint method data] |}).
Proof.
  unfold _make_request, try_except, bind, send_request, lift, raise, ret.
  fold (api_request self endpoint method data).
  destruct (http (api_request self endpoint method data) (net_world s))
    as [[t | result] w']; cbn [fst snd].
  - destruct (is_RequestException t); [reflexivity|].
    destruct (is_JSONDecodeError t); reflexivity.
  - destruct result; try reflexivity.
    cbn [Py.get]. unfold eret, ok_flag, error_code.
    destruct (Py.truthy
                match Py.dict_get d (u "ok") with
                | Some x => x
                | None => PBool false
                end); reflexivity.
Qed.

End RoundTripFacts.

(** X9.  [_make_request] returns exactly when the network answers with a
    dictionary whose ['ok'] is true, and then it returns that dictionary
    unchanged, having sent the one request. *)
Theorem make_request_returns_iff
    (rt : runtime) (world : Type)
    (http : request -> world -> exc pyval * world)
    (self : SlackAPIClient) (endpoint method : pystr)
    (data : option (list (pystr * pyval)))
    (s s' : net world) (result : pyval) :
  _make_request rt http self endpoint method data s = (inr result, s')
  <-> exists body,
        http (api_request self endpoint method data) (net_world s)
          = (inr (PDict body), net_world s')
        /\ Py.truthy (ok_flag body) = true
        /\ result = PDict body
        /\ net_sent s' = net_sent s ++ [api_request self endpoint method data].
Proof.
  rewrite make_request_step.
  destruct (http (api_request self endpoint method data) (net_world s))
    as [[t | answer] w'] eqn:Ehttp; cbn [fst snd].
  - split.
    + destruct (is_RequestException t); [discriminate|].
      destruct (is_JSONDecodeError t); discriminate.
    + intros (body & H & _). discriminate.
  - split.
    + destruct answer; try discriminate.
      destruct (Py.truthy (ok_flag d)) eqn:Eok; [|discriminate].
      intros H. injection H as <- <-. exists d. repeat split. exact Eok.
    + intros (body & H & Hok & -> & Hsent).
      injection H as -> Hw. rewrite Hok.
      destruct s' as [w1 sent1]. simpl in *. subst. reflexivity.
Qed.

(** X10.  When [_make_request] raises, the exception is of one of five
    kinds: a transport exception of the [requests] library wrapped as an
    HTTP failure, a JSON decoding error wrapped as a parse failure, any other
    exception of the transport as it is, an [AttributeError] for a body that
    is not a dictionary, or the service's own rejection with its error
    code. *)
Theorem make_request_failure_kinds
    (rt : runtime) (world : Type)
    (http : request -> world -> exc pyval * world)
    (self : SlackAPIClient) (endpoint method : pystr)
    (data : option (list (pystr * pyval)))
    (s s' : net world) (e : pyexc) :
  _make_request rt http self endpoint method data s = (inl e, s') ->
  let answer :=
    fst (http (api_request self endpoint method data) (net_world s)) in
  (exists t, answer = inl t /\ is_RequestException t = true
             /\ e = plain_exception "HTTP 요청 실패: " (exc_str t))
  \/ (exists t, answer = inl t /\ is_RequestException t = false
                /\ is_JSONDecodeError t = true
                /\ e = plain_exception "JSON 파싱 실패: " (exc_str t))
  \/ (exists t, answer = inl t /\ is_RequestException t = false
                /\ is_JSONDecodeError t = false /\ e = t)
  \/ (exists other, answer = inr other /\ (forall body, other <> PDict body)
                    /\ exc_cls e = AttributeErrorC)
  \/ (exists body, answer = inr (PDict body)
                   /\ Py.truthy (ok_flag body) = false
                   /\ e = plain_exception "Slack API 오류: "
                            (format_value rt (error_code body))).
Proof.
  rewrite make_request_step. intros H answer. subst answer.
  destruct (fst (http (api_request self endpoint method data) (net_world s)))
    as [t | other].
  - destruct (is_RequestException t) eqn:Ereq.
    + left. exists t. injection H as <- _. repeat split. exact Ereq.
    + destruct (is_JSONDecodeError t) eqn:Ejson.
      * right. left. exists t. injection H as <- _. repeat split; assumption.
      * right. right. left. exists t. injection H as <- _.
        repeat split; assumption.
  - destruct other;
      try (right; right; right; left; eexists; injection H as <- _;
           repeat split; discriminate).
    destruct (Py.truthy (ok_flag d)) eqn:Eok; [discriminate|].
    right. right. right. right. exists d. injection H as <- _.
    repeat split. exact Eok.
Qed.

Lemma make_request_failure_kinds_witness :
  exists body,
    fst (canned (PDict [ (u "ok", PBool false) ])
           (api_request demo_client (u "users.list") (u "GET") None) tt)
      = inr (PDict body)
    /\ Py.truthy (ok_flag body) = false
    /\ plain_exception "Slack API 오류: " (u "Unknown error")
       = plain_exception "Slack API 오류: "
           (format_value ascii_runtime (error_code body)).
Proof.
  destruct (make_request_failure_kinds ascii_runtime unit
              (canned (PDict [ (u "ok", PBool false) ]))
              demo_client (u "users.list") (u "GET") None start
              {| net_world := tt;
                 net_sent := [api_request demo_client (u "users.list")
                                (u "GET") None] |}
              (plain_exception "Slack API 오류: " (u "Unknown error")))
    as [(t & H & _) | [(t & H & _) | [(t & H & _) | [(o & H & Hnot & _) | H]]]].
  - reflexivity.
  - discriminate H.
  - discriminate H.
  - discriminate H.
  - exfalso. injection H as <-. now apply (Hnot [ (u "ok", PBool false) ]).
  - exact H.
Defined.

(* ================================================================== *)
(** ** Failures of the first round trip, seen from the tools *)
(* ================================================================== *)

Section FirstRoundTrip.

Variable rt : runtime.
Variable world : Type.
Variable http : request -> world -> exc pyval * world.
Variable slack_token : pystr.

(** Every client method starts with a [_make_request]; when that raises,
    so does the method, without a further request. *)
Lemma client_call_first_failure (c : tool_call) (s s1 : net world) (e : pyexc) :
  (forall endpoint method data,
      api_request (slack_client slack_token) endpoint method data
        = first_request slack_token c ->
      _make_request rt http (slack_client slack_token) endpoint method data s
        = (inl e, s1)) ->
  client_call rt http slack_token c s = (inl e, s1).
Proof.
  intros Hfirst.
  destruct c; cbn [client_call];
    unfold send_message, get_channels, get_channel_history, send_direct_message,
      open_dm_channel, get_users, bind;
    rewrite Hfirst by reflexivity; reflexivity.
Qed.

Lemma invoke_client_failure (c : tool_call) (s s1 : net world) (e : pyexc) :
  client_call rt http slack_token c s = (inl e, s1) ->
  invoke rt http slack_token c s
  = (inr (failure_result (failure_prefix c) e), s1).
Proof.
  intros Hfail.
  destruct c; cbn [invoke client_call failure_prefix] in *;
    unfold send_slack_message, get_slack_channels, get_slack_channel_history,
      send_slack_direct_message, get_slack_users;
    rewrite (try_except_client_failure world _ _ _ s s1 e Hfail);
    reflexivity.
Qed.

End FirstRoundTrip.

(** X11.  When the service rejects a tool's first request ([ok] false,
    error code [code]), the tool returns its failure dictionary whose error
    text is the tool's prefix, ["Slack API 오류: "] and the code; exactly
    that one request has been sent. *)
Theorem remote_rejection_reaches_caller
    (rt : runtime) (world : Type)
    (http : request -> world -> exc pyval * world)
    (slack_token : pystr) (c : tool_call) (s : net world)
    (body : list (pystr * pyval)) (code : pystr) :
  fst (http (first_request slack_token c) (net_world s)) = inr (PDict body) ->
  Py.truthy (ok_flag body) = false ->
  Py.dict_get body (u "error") = Some (PStr code) ->
  invoke rt http slack_token c s
  = (inr (PDict [ (u "success", PBool false);
                  (u "error",
                    PStr (u (failure_prefix c) ++ u "Slack API 오류: " ++ code)) ]),
     {| net_world := snd (http (first_request slack_token c) (net_world s));
        net_sent := net_sent s ++ [first_request slack_token c] |}).
Proof.
  intros Hanswer Hok Hcode.
  apply (invoke_client_failure rt world http slack_token c s _
           (plain_exception "Slack API 오류: " code)).
  apply client_call_first_failure. intros endpoint method data Hreq.
  rewrite make_request_step, Hreq, Hanswer, Hok.
  unfold error_code. rewrite Hcode. reflexivity.
Qed.

Lemma remote_rejection_reaches_caller_witness :
  invoke ascii_runtime
    (canned (PDict [ (u "ok", PBool false);
                     (u "error", PStr (u "channel_not_found")) ]))
    (u "xoxb-token")
    (Call_send_slack_direct_message (u "U404") (u "hi")) start
  = (inr (PDict [ (u "success", PBool false);
                  (u "error",
                    PStr (u (failure_prefix
                               (Call_send_slack_direct_message (u "U404") (u "hi")))
                          ++ u "Slack API 오류: " ++ u "channel_not_found")) ]),
     {| net_world :=
          snd (canned (PDict [ (u "ok", PBool false);
                               (u "error", PStr (u "channel_not_found")) ])
                 (first_request (u "xoxb-token")
                    (Call_send_slack_direct_message (u "U404") (u "hi")))
                 (net_world start));
        net_sent :=
          net_sent start
          ++ [first_request (u "xoxb-token")
                (Call_send_slack_direct_message (u "U404") (u "hi"))] |}).
Proof.
  apply (remote_rejection_reaches_caller ascii_runtime unit
           (canned (PDict [ (u "ok", PBool false);
                            (u "error", PStr (u "channel_not_found")) ]))
           (u "xoxb-token")
           (Call_send_slack_direct_message (u "U404") (u "hi")) start
           [ (u "ok", PBool false); (u "error", PStr (u "channel_not_found")) ]
           (u "channel_not_found")).
  - reflexivity.
  - reflexivity.
  - reflexivity.
Defined.

(** X12.  When the transport raises on a tool's first request, the tool
    returns its failure dictionary: a [requests] exception is reported as
    ["HTTP 요청 실패: "] with its text, also when it is the library's own
    JSON decoding error; a plain [json.JSONDecodeError] is reported as
    ["JSON 파싱 실패: "] with its text. *)
Theorem transport_failure_reaches_caller
    (rt : runtime) (world : Type)
    (http : request -> world -> exc pyval * world)
    (slack_token : pystr) (c : tool_call) (s : net world) (t : pyexc) :
  fst (http (first_request slack_token c) (net_world s)) = inl t ->
  is_RequestException t = true \/ is_JSONDecodeError t = true ->
  invoke rt http slack_token c s
  = (inr (PDict [ (u "success", PBool false);
                  (u "error",
                    PStr (u (failure_prefix c)
                          ++ u (if is_RequestException t
                                then "HTTP 요청 실패: "
                                else "JSON 파싱 실패: ")
                          ++ exc_str t)) ]),
     {| net_world := snd (http (first_request slack_token c) (net_world s));
        net_sent := net_sent s ++ [first_request slack_token c] |}).
Proof.
  intros Hanswer Hkind.
  apply (invoke_client_failure rt world http slack_token c s _
           (plain_exception (if is_RequestException t
                             then "HTTP 요청 실패: "
                             else "JSON 파싱 실패: ") (exc_str t))).
  apply client_call_first_failure. intros endpoint method data Hreq.
  rewrite make_request_step, Hreq, Hanswer.
  destruct (is_RequestException t); [reflexivity|].
  destruct Hkind as [Hreqx | Hjson]; [discriminate|].
  rewrite Hjson. reflexivity.
Qed.

Lemma transport_failure_reaches_caller_witness :
  fst (invoke ascii_runtime
         (fun _ w => (inl {| exc_cls := RequestsJSONDecodeErrorC;
                             exc_str := u "Expecting value: line 1 column 1 (char 0)" |},
                      w))
         (u "xoxb-token") Call_get_slack_users start)
  = inr (PDict [ (u "success", PBool false);
                 (u "error",
                   PStr (u (failure_prefix Call_get_slack_users)
                         ++ u "HTTP 요청 실패: "
                         ++ u "Expecting value: line 1 column 1 (char 0)")) ]).
Proof.
  rewrite (transport_failure_reaches_caller ascii_runtime unit
             (fun _ w => (inl {| exc_cls := RequestsJSONDecodeErrorC;
                                 exc_str := u "Expecting value: line 1 column 1 (char 0)" |},
                          w))
             (u "xoxb-token") Call_get_slack_users start
             {| exc_cls := RequestsJSONDecodeErrorC;
                exc_str := u "Expecting value: line 1 column 1 (char 0)" |}).
  - reflexivity.
  - reflexivity.
  - left. reflexivity.
Defined.

(* ================================================================== *)
(** ** The requests that go out *)
(* ================================================================== *)

Section RequestFacts.

Variable rt : runtime.
Variable world : Type.
Variable http : request -> world -> exc pyval * world.

Lemma make_request_log self endpoint method data (s : net world) :
  net_sent (snd (_make_request rt http self endpoint method data s))
  = net_sent s ++ [api_request self endpoint method data].
Proof. rewrite make_request_step. reflexivity. Qed.

Lemma open_dm_channel_log self user_id (s : net world) :
  net_sent (snd (open_dm_channel rt http self user_id s))
  = net_sent s
    ++ [api_request self (u "conversations.open") (u "POST")
          (Some [ (u "users", PStr user_id) ])].
Proof.
  unfold open_dm_channel. rewrite bind_lift_state. apply make_request_log.
Qed.

Lemma send_direct_message_run self user_id text (s : net world) :
  send_direct_message rt http self user_id text s
  = match open_dm_channel rt http self user_id s with
    | (inl e, s1) => (inl e, s1)
    | (inr dm_channel_id, s1) =>
        _make_request rt http self (u "chat.postMessage") (u "POST")
          (Some [ (u "channel", dm_channel_id); (u "text", PStr text) ]) s1
    end.
Proof. reflexivity. Qed.

(** The state a tool leaves is the state its client call leaves: neither
    the reshaping nor the handler touches the network. *)
Lemma try_except_state {A} (client : M world A) (reshape : A -> exc pyval)
    (on_failure : pyexc -> pyval) (s : net world) :
  snd (try_except (bind client (fun a => lift (reshape a)))
                  (fun e => ret (on_failure e)) s)
  = snd (client s).
Proof.
  unfold try_except, bind, lift, ret.
  destruct (client s) as [[e | a] s1]; [reflexivity|].
  destruct (reshape a); reflexivity.
Qed.

Lemma direct_message_log self user_id text (s : net world) :
  net_sent (snd (send_direct_message rt http self user_id text s))
    = net_sent s
      ++ [api_request self (u "conversations.open") (u "POST")
            (Some [ (u "users", PStr user_id) ])]
  \/ exists dm_channel_id,
       net_sent (snd (send_direct_message rt http self user_id text s))
       = net_sent s
         ++ [ api_request self (u "conversations.open") (u "POST")
                (Some [ (u "users", PStr user_id) ]);
              api_request self (u "chat.postMessage") (u "POST")
                (Some [ (u "channel", dm_channel_id);
                        (u "text", PStr text) ]) ].
Proof.
  pose proof (open_dm_channel_log self user_id s) as Hlog.
  rewrite send_direct_message_run.
  destruct (open_dm_channel rt http self user_id s) as [[e | dm] s1];
    cbn [snd] in *.
  - left. exact Hlog.
  - right. exists dm. rewrite make_request_log, Hlog, <- app_assoc.
    reflexivity.
Qed.

Lemma invoke_state slack_token (c : tool_call) (s : net world) :
  snd (invoke rt http slack_token c s)
  = snd (client_call rt http slack_token c s).
Proof.
  destruct c; cbn [invoke client_call];
    unfold send_slack_message, get_slack_channels, get_slack_channel_history,
      send_slack_direct_message, get_slack_users;
    apply try_except_state.
Qed.

End RequestFacts.

(** X13.  [send_direct_message] posts nothing when the conversation cannot
    be opened: it raises what [open_dm_channel] raised, after that one
    request.  When the conversation opens, the message is posted to the
    identifier it returned, as the second and last request. *)
Theorem direct_message_composition
    (rt : runtime) (world : Type)
    (http : request -> world -> exc pyval * world)
    (self : SlackAPIClient) (user_id text : pystr) (s : net world) :
  let open_request :=
    api_request self (u "conversations.open") (u "POST")
      (Some [ (u "users", PStr user_id) ]) in
  (forall e s1,
      open_dm_channel rt http self user_id s = (inl e, s1) ->
      send_direct_message rt http self user_id text s = (inl e, s1)
      /\ net_sent s1 = net_sent s ++ [open_request])
  /\ (forall dm_channel_id s1,
        open_dm_channel rt http self user_id s = (inr dm_channel_id, s1) ->
        send_direct_message rt http self user_id text s
          = send_message rt http self dm_channel_id text s1
        /\ net_sent (snd (send_direct_message rt http self user_id text s))
           = net_sent s
             ++ [ open_request;
                  api_request self (u "chat.postMessage") (u "POST")
                    (Some [ (u "channel", dm_channel_id);
                            (u "text", PStr text) ]) ]).
Proof.
  intros open_request. split.
  - intros e s1 Hopen. split.
    + rewrite send_direct_message_run, Hopen. reflexivity.
    + pose proof (open_dm_channel_log rt world http self user_id s) as Hlog.
      rewrite Hopen in Hlog. exact Hlog.
  - intros dm_channel_id s1 Hopen.
    pose proof (open_dm_channel_log rt world http self user_id s) as Hlog.
    rewrite Hopen in Hlog. cbn [snd] in Hlog. split.
    + rewrite send_direct_message_run, Hopen. reflexivity.
    + rewrite send_direct_message_run, Hopen, make_request_log, Hlog.
      rewrite <- app_assoc. reflexivity.
Qed.

(** X14.  Whatever a tool is called with and whatever the network
    answers, the tool sends one request, or two when it is the direct
    message tool; the first is the tool's own, and each goes to the Slack
    API base address with the bearer token of the server in its
    [Authorization] header. *)
Theorem every_request_is_authorized
    (rt : runtime) (world : Type)
    (http : request -> world -> exc pyval * world)
    (slack_token : pystr) (c : tool_call) (s : net world) :
  exists rest,
    net_sent (snd (invoke rt http slack_token c s))
      = net_sent s ++ first_request slack_token c :: rest
    /\ (rest = []
        \/ exists user_id text r,
             c = Call_send_slack_direct_message user_id text /\ rest = [r])
    /\ Forall (fun r =>
                 req_headers r
                   = [ (u "Authorization", u "Bearer " ++ slack_token);
                       (u "Content-Type", u "application/json; charset=utf-8") ]
                 /\ PyStr.starts_with (u "https://slack.com/api/") (req_url r)
                    = true)
              (first_request slack_token c :: rest).
Proof.
  rewrite invoke_state.
  destruct c; cbn [client_call first_request].
  - exists []. unfold send_message. rewrite make_request_log.
    repeat split; auto; repeat constructor.
  - exists []. unfold get_channels. rewrite bind_lift_state, make_request_log.
    repeat split; auto; repeat constructor.
  - exists []. unfold get_channel_history.
    rewrite bind_lift_state, make_request_log.
    repeat split; auto; repeat constructor.
  - pose proof (direct_message_log rt world http (slack_client slack_token)
                  user_id text s) as [Hone | (dm & Htwo)].
    + exists []. rewrite Hone. repeat split; auto; repeat constructor.
    + exists [ api_request (slack_client slack_token) (u "chat.postMessage")
                 (u "POST")
                 (Some [ (u "channel", dm); (u "text", PStr text) ]) ].
      rewrite Htwo. split; [reflexivity|]. split.
      * right. exists user_id, text. eexists. split; reflexivity.
      * repeat constructor.
  - exists []. unfold get_users. rewrite bind_lift_state, make_request_log.
    repeat split; auto; repeat constructor.
Qed.

(* ================================================================== *)
(** ** [get_top_words_in_channel] as a whole *)
(* ================================================================== *)

(** X15.  [get_top_words_in_channel] never raises: it returns a dictionary
    with a boolean ['success'], a string ['error'] when that is false, and
    always the ['channel_id'] it was asked about.  When the analysis raises
    [e], the error text is ["단어 분석 실패: "] followed by [str(e)]. *)
Theorem top_words_never_raises
    (rt : runtime) (world : Type)
    (http : request -> world -> exc pyval * world)
    (self : SlackAPIClient) (channel_id : pystr) (top_n message_limit : Z)
    (s : net world) :
  (exists d s',
      get_top_words_in_channel rt http self channel_id top_n message_limit s
        = (inr (PDict d), s')
      /\ structured_result (PDict d)
      /\ Py.dict_get d (u "channel_id") = Some (PStr channel_id))
  /\ (forall e s1,
        analyze_channel_word_frequency rt http self channel_id message_limit s
          = (inl e, s1) ->
        get_top_words_in_channel rt http self channel_id top_n message_limit s
        = (inr (PDict [ (u "success", PBool false);
                        (u "error", PStr (u "단어 분석 실패: " ++ exc_str e));
                        (u "channel_id", PStr channel_id) ]),
           s1)).
Proof.
  assert (Hfail : forall e,
            structured_result
              (PDict [ (u "success", PBool false);
                       (u "error", PStr (u "단어 분석 실패: " ++ exc_str e));
                       (u "channel_id", PStr channel_id) ])).
  { intros e. eexists. split; [reflexivity|]. exists false.
    split; [reflexivity|]. intros _. eexists. reflexivity. }
  split.
  - unfold get_top_words_in_channel, try_except, bind, lift, ret.
    destruct (analyze_channel_word_frequency rt http self channel_id
                message_limit s) as [[e | wf] s1].
    + eexists. exists s1. split; [reflexivity|]. split; [apply Hfail|].
      reflexivity.
    + destruct (top_words_report channel_id top_n message_limit wf)
        as [e | v] eqn:Ereport.
      * eexists. exists s1. split; [reflexivity|]. split; [apply Hfail|].
        reflexivity.
      * apply top_words_report_returns in Ereport as (entries & -> & _).
        eexists. exists s1. split; [reflexivity|].
        split; [apply success_dict_structured | reflexivity].
  - intros e s1 Hrun.
    unfold get_top_words_in_channel, try_except, bind.
    rewrite Hrun. reflexivity.
Qed.

(** X16.  The analyzer cannot be made to look at more than one fetch of
    100 messages: for every [message_limit] of 100 or more it is the same
    computation as for 100. *)
Theorem limits_from_100_are_alike
    (rt : runtime) (world : Type)
    (http : request -> world -> exc pyval * world)
    (self : SlackAPIClient) (channel_id : pystr) (limit : Z) (s : net world) :
  100 <= limit ->
  analyze_channel_word_frequency rt http self channel_id limit s
  = analyze_channel_word_frequency rt http self channel_id 100 s.
Proof.
  intros Hlimit. unfold analyze_channel_word_frequency.
  replace (Z.min (if limit >? 1000 then 1000 else limit) 100) with 100.
  - reflexivity.
  - destruct (limit >? 1000); lia.
Qed.

Lemma limits_from_100_are_alike_witness :
  analyze_channel_word_frequency ascii_runtime
    (canned (ok_body "messages" (PList [ PDict (demo_message "hello world") ])))
    demo_client (u "C1") 5000 start
  = analyze_channel_word_frequency ascii_runtime
      (canned (ok_body "messages" (PList [ PDict (demo_message "hello world") ])))
      demo_client (u "C1") 100 start.
Proof.
  apply (limits_from_100_are_alike ascii_runtime unit
           (canned (ok_body "messages"
              (PList [ PDict (demo_message "hello world") ])))
           demo_client (u "C1") 5000 start).
  lia.
Defined.

(* ================================================================== *)
(** ** The listing tools *)
(* ================================================================== *)

Lemma emap_map {A B} (f : A -> exc B) (g : A -> B) (l : list A) :
  Forall (fun a => f a = inr (g a)) l ->
  emap f l = inr (map g l).
Proof.
  induction 1 as [|a l Ha _ IH]; simpl; [reflexivity|].
  rewrite Ha, IH. reflexivity.
Qed.

Lemma channel_info_projection (channel : pyval) :
  channel_object channel -> channel_info channel = inr (project_channel channel).
Proof.
  intros (d & -> & Htopic & Hpurpose).
  unfold channel_info, project_channel, nested_value, get_or. simpl.
  destruct (Py.dict_get d (u "topic")) as [topic|] eqn:Et.
  - destruct (Htopic topic eq_refl) as (t & ->). simpl.
    destruct (Py.dict_get d (u "purpose")) as [purpose|] eqn:Ep.
    + destruct (Hpurpose purpose eq_refl) as (p & ->). reflexivity.
    + reflexivity.
  - simpl.
    destruct (Py.dict_get d (u "purpose")) as [purpose|] eqn:Ep.
    + destruct (Hpurpose purpose eq_refl) as (p & ->). reflexivity.
    + reflexivity.
Qed.

Lemma message_info_projection (message : pyval) :
  is_dict message -> message_info message = inr (project_message message).
Proof. intros (d & ->). reflexivity. Qed.

(** X17.  For channel objects, the channel listing returns the seven-field
    projection of every channel the service sent, in order, and
    [total_count] is their number: nothing is filtered by the tool. *)
Theorem channel_listing_projects_all
    (rt : runtime) (world : Type)
    (http : request -> world -> exc pyval * world)
    (slack_token : pystr) (s s' : net world) (channels : list pyval) :
  get_channels rt http (slack_client slack_token) s
    = (inr (PList channels), s') ->
  Forall channel_object channels ->
  get_slack_channels rt http slack_token s
  = (inr (PDict [ (u "success", PBool true);
                  (u "channels", PList (map project_channel channels));
                  (u "total_count", PInt (Z.of_nat (List.length channels))) ]),
     s').
Proof.
  intros Hfetch Hall.
  unfold get_slack_channels, try_except, bind, lift.
  rewrite Hfetch. simpl.
  rewrite (emap_map channel_info project_channel channels).
  - simpl. unfold py_len. rewrite length_map. reflexivity.
  - eapply Forall_impl; [|exact Hall].
    intros c Hc. now apply channel_info_projection.
Qed.

Lemma channel_listing_projects_all_witness :
  get_slack_channels ascii_runtime
    (canned (ok_body "channels"
       (PList [ PDict [ (u "id", PStr (u "C1")); (u "name", PStr (u "general"));
                        (u "topic", PDict [ (u "value", PStr (u "news")) ]);
                        (u "num_members", PInt 12) ];
                PDict [ (u "id", PStr (u "C2")); (u "is_private", PBool true) ] ])))
    (u "xoxb-token") start
  = (inr (PDict
       [ (u "success", PBool true);
         (u "channels",
           PList (map project_channel
             [ PDict [ (u "id", PStr (u "C1")); (u "name", PStr (u "general"));
                       (u "topic", PDict [ (u "value", PStr (u "news")) ]);
                       (u "num_members", PInt 12) ];
               PDict [ (u "id", PStr (u "C2")); (u "is_private", PBool true) ] ]));
         (u "total_count", PInt (Z.of_nat 2)) ]),
     {| net_world := tt;
        net_sent := [first_request (u "xoxb-token") Call_get_slack_channels] |}).
Proof.
  apply (channel_listing_projects_all ascii_runtime unit
           (canned (ok_body "channels"
              (PList [ PDict [ (u "id", PStr (u "C1")); (u "name", PStr (u "general"));
                               (u "topic", PDict [ (u "value", PStr (u "news")) ]);
                               (u "num_members", PInt 12) ];
                       PDict [ (u "id", PStr (u "C2")); (u "is_private", PBool true) ] ])))
           (u "xoxb-token") start).
  - reflexivity.
  - apply Forall_cons; [|apply Forall_cons; [|apply Forall_nil]].
    + eexists. split; [reflexivity|]. split.
      * intros v H. injection H as <-. eexists. reflexivity.
      * intros v H. discriminate H.
    + eexists. split; [reflexivity|]. split; intros v H; discriminate H.
Defined.

(** X18.  For a history of dictionaries, the history tool returns the
    five-field projection of every message fetched, bot and system messages
    included, in order; [message_count] is their number and [channel_id] is
    the one asked for. *)
Theorem history_tool_projects_all
    (rt : runtime) (world : Type)
    (http : request -> world -> exc pyval * world)
    (slack_token : pystr) (channel_id : pystr) (limit : Z)
    (s s' : net world) (messages : list pyval) :
  get_channel_history rt http (slack_client slack_token) channel_id limit s
    = (inr (PList messages), s') ->
  Forall is_dict messages ->
  get_slack_channel_history rt http slack_token channel_id limit s
  = (inr (PDict [ (u "success", PBool true);
                  (u "messages", PList (map project_message messages));
                  (u "channel_id", PStr channel_id);
                  (u "message_count", PInt (Z.of_nat (List.length messages))) ]),
     s').
Proof.
  intros Hfetch Hall.
  unfold get_slack_channel_history, try_except, bind, lift.
  rewrite Hfetch. simpl.
  rewrite (emap_map message_info project_message messages).
  - simpl. unfold py_len. rewrite length_map. reflexivity.
  - eapply Forall_impl; [|exact Hall].
    intros m Hm. now apply message_info_projection.
Qed.

Lemma history_tool_projects_all_witness :
  get_slack_channel_history ascii_runtime
    (canned (ok_body "messages"
       (PList [ PDict ((u "bot_id", PStr (u "B042")) :: demo_message "deploy finished");
                PDict [ (u "type", PStr (u "message"));
                        (u "subtype", PStr (u "channel_join")) ] ])))
    (u "xoxb-token") (u "C1") 500 start
  = (inr (PDict
       [ (u "success", PBool true);
         (u "messages",
           PList (map project_message
             [ PDict ((u "bot_id", PStr (u "B042")) :: demo_message "deploy finished");
               PDict [ (u "type", PStr (u "message"));
                       (u "subtype", PStr (u "channel_join")) ] ]));
         (u "channel_id", PStr (u "C1"));
         (u "message_count", PInt (Z.of_nat 2)) ]),
     {| net_world := tt;
        net_sent := [first_request (u "xoxb-token")
                       (Call_get_slack_channel_history (u "C1") 500)] |}).
Proof.
  apply (history_tool_projects_all ascii_runtime unit
           (canned (ok_body "messages"
              (PList [ PDict ((u "bot_id", PStr (u "B042")) :: demo_message "deploy finished");
                       PDict [ (u "type", PStr (u "message"));
                               (u "subtype", PStr (u "channel_join")) ] ])))
           (u "xoxb-token") (u "C1") 500 start).
  - reflexivity.
  - apply Forall_cons; [|apply Forall_cons; [|apply Forall_nil]];
      eexists; reflexivity.
Defined.

(** Once one user cannot be projected, the loop ends with an exception,
    whatever came before and whatever follows. *)
Lemma collect_users_fails (before after : list pyval) (bad : pyval) :
  (exists e, user_info bad = inl e) ->
  user_deleted bad = false ->
  is_dict bad ->
  forall user_list,
    exists e, collect_users (before ++ bad :: after) user_list = inl e.
Proof.
  intros (e0 & Hbad) Hdeleted (d & ->).
  induction before as [|user rest IH]; intros user_list.
  - cbn [app collect_users]. cbn [Py.get ebind eret].
    unfold user_deleted in Hdeleted. rewrite Hdeleted. cbn [negb].
    rewrite Hbad. exists e0. reflexivity.
  - cbn [app collect_users]. unfold ebind at 1.
    destruct (Py.get user (u "deleted") (PBool false)) as [e | deleted];
      [now exists e|].
    destruct (negb (Py.truthy deleted)).
    + unfold ebind at 1.
      destruct (user_info user) as [e | info]; [now exists e|].
      apply IH.
    + apply IH.
Qed.

(** X19.  The user listing is all or nothing: if one user that is not
    deleted carries a ['profile'] that is not a dictionary (a [null], say),
    the tool returns a failure dictionary and no user at all, whatever the
    other users are. *)
Theorem one_malformed_user_fails_listing
    (rt : runtime) (world : Type)
    (http : request -> world -> exc pyval * world)
    (slack_token : pystr) (s s' : net world)
    (before after : list pyval) (d : list (pystr * pyval)) (profile : pyval) :
  get_users rt http (slack_client slack_token) s
    = (inr (PList (before ++ PDict d :: after)), s') ->
  user_deleted (PDict d) = false ->
  Py.dict_get d (u "profile") = Some profile ->
  (forall p, profile <> PDict p) ->
  exists e,
    get_slack_users rt http slack_token s
    = (inr (PDict [ (u "success", PBool false);
                    (u "error",
                      PStr (u "사용자 목록 조회 실패: " ++ exc_str e)) ]),
       s').
Proof.
  intros Hfetch Hdeleted Hprofile Hnot.
  assert (Hbad : exists e, user_info (PDict d) = inl e).
  { unfold user_info. cbn [Py.get ebind eret]. rewrite Hprofile.
    destruct profile as [| | | | | |p]; try (eexists; reflexivity).
    exfalso. now apply (Hnot p). }
  destruct (collect_users_fails before after (PDict d) Hbad Hdeleted
              (ex_intro _ d eq_refl) []) as (e & He).
  exists e.
  unfold get_slack_users, try_except, bind, lift, ret.
  rewrite Hfetch. cbn [Py.iter ebind eret]. rewrite He. reflexivity.
Qed.

Lemma one_malformed_user_fails_listing_witness :
  exists e,
    get_slack_users ascii_runtime
      (canned (ok_body "members"
         (PList ([ PDict [ (u "id", PStr (u "U1")) ] ]
                 ++ PDict [ (u "id", PStr (u "U2")); (u "profile", PNone) ]
                 :: [ PDict [ (u "id", PStr (u "U3")) ] ]))))
      (u "xoxb-token") start
    = (inr (PDict [ (u "success", PBool false);
                    (u "error",
                      PStr (u "사용자 목록 조회 실패: " ++ exc_str e)) ]),
       {| net_world := tt;
          net_sent := [first_request (u "xoxb-token") Call_get_slack_users] |}).
Proof.
  apply (one_malformed_user_fails_listing ascii_runtime unit
           (canned (ok_body "members"
              (PList ([ PDict [ (u "id", PStr (u "U1")) ] ]
                      ++ PDict [ (u "id", PStr (u "U2")); (u "profile", PNone) ]
                      :: [ PDict [ (u "id", PStr (u "U3")) ] ]))))
           (u "xoxb-token") start
           {| net_world := tt;
              net_sent := [first_request (u "xoxb-token") Call_get_slack_users] |}
           [ PDict [ (u "id", PStr (u "U1")) ] ]
           [ PDict [ (u "id", PStr (u "U3")) ] ]
           [ (u "id", PStr (u "U2")); (u "profile", PNone) ]
           PNone).
  - reflexivity.
  - reflexivity.
  - reflexivity.
  - intros p H. discriminate H.
Defined.

(* ================================================================== *)
(** ** Texts that are not strings, and letter case *)
(* ================================================================== *)

Lemma message_words_ordinary (rt : runtime) d v :
  ordinary_message d v ->
  message_words rt (PDict d) = _extract_words_from_text rt v.
Proof.
  intros (Htext & Htype & Hbot & Hsub).
  unfold message_words, field in *. simpl.
  unfold Py.dict_has. rewrite Htext, Htype. simpl.
  destruct (Py.dict_get d (u "bot_id")) as [b|]; simpl in *;
    rewrite ?Hbot; simpl;
    destruct (Py.dict_get d (u "subtype")) as [t|]; simpl in *;
    rewrite ?Hsub; reflexivity.
Qed.

(** X20.  An ordinary message whose ['text'] is a false value that is not
    a string ([null], 0, an empty list) adds no words; one whose ['text'] is
    a true value that is not a string makes the analysis raise a
    [TypeError], and [get_top_words_in_channel] then reports a failure for
    the whole batch, whatever the other messages hold. *)
Theorem non_string_text
    (rt : runtime) (world : Type)
    (http : request -> world -> exc pyval * world)
    (self : SlackAPIClient) (channel_id : pystr) (top_n message_limit : Z)
    (s s' : net world)
    (before after : list pyval) (wss : list (list pystr))
    (d : list (pystr * pyval)) (v : pyval) :
  ordinary_message d v ->
  (forall t, v <> PStr t) ->
  (Py.truthy v = false -> message_words rt (PDict d) = inr [])
  /\ (Py.truthy v = true ->
      Forall2 (fun m ws => message_words rt m = inr ws) before wss ->
      get_channel_history rt http self channel_id (Z.min message_limit 100) s
        = (inr (PList (before ++ PDict d :: after)), s') ->
      exists e,
        exc_cls e = TypeErrorC
        /\ get_top_words_in_channel rt http self channel_id top_n
             message_limit s
           = (inr (PDict [ (u "success", PBool false);
                           (u "error",
                             PStr (u "단어 분석 실패: " ++ exc_str e));
                           (u "channel_id", PStr channel_id) ]),
              s')).
Proof.
  intros Hmsg Hnot.
  pose proof (message_words_ordinary rt d v Hmsg) as Hwords.
  split.
  - intros Hfalse. rewrite Hwords. unfold _extract_words_from_text.
    rewrite Hfalse. reflexivity.
  - intros Htrue Hbefore Hfetch.
    assert (Hraise : exists e, exc_cls e = TypeErrorC
                               /\ message_words rt (PDict d) = inl e).
    { rewrite Hwords. unfold _extract_words_from_text. rewrite Htrue.
      cbn [negb]. destruct v as [| | | |t| |];
        try (eexists; split; [|reflexivity]; reflexivity).
      exfalso. now apply (Hnot t). }
    destruct Hraise as (e & Hcls & He). exists e. split; [exact Hcls|].
    unfold get_top_words_in_channel, try_except, bind.
    rewrite (analyze_after_fetch rt world http _ _ _ _ _ _ Hfetch).
    unfold word_frequency_of. cbn [Py.iter ebind eret].
    rewrite (collect_words_abort rt before after wss (PDict d) e Hbefore He).
    reflexivity.
Qed.

Lemma non_string_text_witness :
  exists e,
    exc_cls e = TypeErrorC
    /\ get_top_words_in_channel ascii_runtime
         (canned (ok_body "messages"
            (PList ([ PDict (demo_message "hello world") ]
                    ++ PDict [ (u "type", PStr (u "message"));
                               (u "text", PInt 42) ]
                    :: [ PDict (demo_message "more words") ]))))
         demo_client (u "C1") 10 100 start
       = (inr (PDict [ (u "success", PBool false);
                       (u "error",
                         PStr (u "단어 분석 실패: " ++ exc_str e));
                       (u "channel_id", PStr (u "C1")) ]),
          {| net_world := tt;
             net_sent := [history_request demo_client (u "C1") 100] |}).
Proof.
  apply (non_string_text ascii_runtime unit
           (canned (ok_body "messages"
              (PList ([ PDict (demo_message "hello world") ]
                      ++ PDict [ (u "type", PStr (u "message"));
                                 (u "text", PInt 42) ]
                      :: [ PDict (demo_message "more words") ]))))
           demo_client (u "C1") 10 100 start
           {| net_world := tt;
              net_sent := [history_request demo_client (u "C1") 100] |}
           [ PDict (demo_message "hello world") ]
           [ PDict (demo_message "more words") ]
           [ [u "hello"; u "world"] ]
           [ (u "type", PStr (u "message")); (u "text", PInt 42) ]
           (PInt 42)).
  - repeat split.
  - intros t H. discriminate H.
  - reflexivity.
  - apply Forall2_cons; [reflexivity | apply Forall2_nil].
  - reflexivity.
Defined.

Section CaseFacts.

Variable rt : runtime.

(** The 128 ASCII code points. *)
Lemma ascii_cases (P : char -> bool) :
  forallb P (map N.of_nat (seq 0 128)) = true ->
  forall c, is_ascii c = true -> P c = true.
Proof.
  intros Hall c Hc. rewrite forallb_forall in Hall. apply Hall.
  apply in_map_iff. exists (N.to_nat c). split.
  - apply N2Nat.id.
  - apply in_seq. unfold is_ascii in Hc. apply N.ltb_lt in Hc. lia.
Qed.




Lemma lower_of_ascii (text : pystr) :
  Forall (fun c => is_ascii c = true) text ->
  lower (rt_ucd rt) text = map ascii_lower text.
Proof.
  intros Hall. unfold lower.
  replace (forallb is_ascii text) with true; [reflexivity|].
  symmetry. apply forallb_forall. now apply Forall_forall.
Qed.

End CaseFacts.



(* ================================================================== *)
(** ** Successful round trips, seen from the tools *)
(* ================================================================== *)

(** X22.  When the service accepts the post, [send_slack_message] returns
    the success dictionary with the channel and the timestamp the service
    confirmed ([None] for one it did not send) and the text as given, after
    that one request. *)
Theorem message_post_confirmed
    (rt : runtime) (world : Type)
    (http : request -> world -> exc pyval * world)
    (slack_token channel text : pystr) (s : net world)
    (body : list (pystr * pyval)) :
  fst (http (first_request slack_token (Call_send_slack_message channel text))
            (net_world s)) = inr (PDict body) ->
  Py.truthy (ok_flag body) = true ->
  send_slack_message rt http slack_token channel text s
  = (inr (PDict
       [ (u "success", PBool true);
         (u "message", PStr (u "메시지가 성공적으로 전송되었습니다."));
         (u "channel", get_or body "channel" PNone);
         (u "timestamp", get_or body "ts" PNone);
         (u "text", PStr text) ]),
     {| net_world :=
          snd (http (first_request slack_token
                       (Call_send_slack_message channel text)) (net_world s));
        net_sent :=
          net_sent s
          ++ [first_request slack_token (Call_send_slack_message channel text)] |}).
Proof.
  intros Hanswer Hok.
  unfold send_slack_message, try_except, bind, lift, send_message.
  rewrite make_request_step. cbn [first_request] in Hanswer.
  rewrite Hanswer, Hok. reflexivity.
Qed.

Lemma message_post_confirmed_witness :
  fst (send_slack_message ascii_runtime
         (canned (PDict [ (u "ok", PBool true);
                          (u "channel", PStr (u "C024BE91L"));
                          (u "ts", PStr (u "1700000000.000200")) ]))
         (u "xoxb-token") (u "#general") (u "hi") start)
  = inr (PDict
      [ (u "success", PBool true);
        (u "message", PStr (u "메시지가 성공적으로 전송되었습니다."));
        (u "channel", PStr (u "C024BE91L"));
        (u "timestamp", PStr (u "1700000000.000200"));
        (u "text", PStr (u "hi")) ]).
Proof.
  rewrite (message_post_confirmed ascii_runtime unit
             (canned (PDict [ (u "ok", PBool true);
                              (u "channel", PStr (u "C024BE91L"));
                              (u "ts", PStr (u "1700000000.000200")) ]))
             (u "xoxb-token") (u "#general") (u "hi") start
             [ (u "ok", PBool true);
               (u "channel", PStr (u "C024BE91L"));
               (u "ts", PStr (u "1700000000.000200")) ]).
  - reflexivity.
  - reflexivity.
  - reflexivity.
Defined.

(** X23.  When the service opens the conversation and accepts the post,
    the direct-message tool returns the success dictionary with the user
    it was given and the timestamp of the post; the post went to the
    conversation identifier the first answer carried, and these two are the
    only requests. *)
Theorem direct_message_delivered
    (rt : runtime) (world : Type)
    (http : request -> world -> exc pyval * world)
    (slack_token user_id text : pystr) (s : net world)
    (opened posted conversation : list (pystr * pyval))
    (dm_channel_id : pyval) (w1 w2 : world) :
  let open_request :=
    first_request slack_token (Call_send_slack_direct_message user_id text) in
  let post_request :=
    api_request (slack_client slack_token) (u "chat.postMessage") (u "POST")
      (Some [ (u "channel", dm_channel_id); (u "text", PStr text) ]) in
  http open_request (net_world s) = (inr (PDict opened), w1) ->
  Py.truthy (ok_flag opened) = true ->
  Py.dict_get opened (u "channel") = Some (PDict conversation) ->
  Py.dict_get conversation (u "id") = Some dm_channel_id ->
  http post_request w1 = (inr (PDict posted), w2) ->
  Py.truthy (ok_flag posted) = true ->
  send_slack_direct_message rt http slack_token user_id text s
  = (inr (PDict
       [ (u "success", PBool true);
         (u "message",
           PStr (u "다이렉트 메시지가 성공적으로 전송되었습니다."));
         (u "user_id", PStr user_id);
         (u "timestamp", get_or posted "ts" PNone);
         (u "text", PStr text) ]),
     {| net_world := w2;
        net_sent := net_sent s ++ [open_request; post_request] |}).
Proof.
  intros open_request post_request Hopen Hok1 Hchannel Hid Hpost Hok2.
  unfold send_slack_direct_message, try_except, bind, lift,
    send_direct_message, open_dm_channel, send_message, bind, lift.
  rewrite make_request_step.
  subst open_request post_request. cbn [first_request] in Hopen.
  rewrite Hopen. cbn [fst snd]. rewrite Hok1.
  cbn [Py.getitem ebind eret]. rewrite Hchannel.
  cbn [Py.getitem ebind eret]. rewrite Hid. unfold eret.
  rewrite make_request_step. cbn [net_world net_sent].
  rewrite Hpost. cbn [fst snd]. rewrite Hok2.
  rewrite <- app_assoc. reflexivity.
Qed.

Lemma direct_message_delivered_witness :
  fst (send_slack_direct_message ascii_runtime
         (canned (PDict [ (u "ok", PBool true);
                          (u "channel", PDict [ (u "id", PStr (u "D123")) ]);
                          (u "ts", PStr (u "1700000000.000300")) ]))
         (u "xoxb-token") (u "U7") (u "hi") start)
  = inr (PDict
      [ (u "success", PBool true);
        (u "message",
          PStr (u "다이렉트 메시지가 성공적으로 전송되었습니다."));
        (u "user_id", PStr (u "U7"));
        (u "timestamp", PStr (u "1700000000.000300"));
        (u "text", PStr (u "hi")) ]).
Proof.
  rewrite (direct_message_delivered ascii_runtime unit
             (canned (PDict [ (u "ok", PBool true);
                              (u "channel", PDict [ (u "id", PStr (u "D123")) ]);
                              (u "ts", PStr (u "1700000000.000300")) ]))
             (u "xoxb-token") (u "U7") (u "hi") start
             [ (u "ok", PBool true);
               (u "channel", PDict [ (u "id", PStr (u "D123")) ]);
               (u "ts", PStr (u "1700000000.000300")) ]
             [ (u "ok", PBool true);
               (u "channel", PDict [ (u "id", PStr (u "D123")) ]);
               (u "ts", PStr (u "1700000000.000300")) ]
             [ (u "id", PStr (u "D123")) ]
             (PStr (u "D123")) tt tt); reflexivity.
Defined.

(** X24.  When the answer to [conversations.open] is accepted but holds no
    ['channel'], the direct-message tool posts nothing and returns its
    failure dictionary, whose error text names the missing key. *)
Theorem direct_message_without_channel
    (rt : runtime) (world : Type)
    (http : request -> world -> exc pyval * world)
    (slack_token user_id text : pystr) (s : net world)
    (opened : list (pystr * pyval)) :
  let open_request :=
    first_request slack_token (Call_send_slack_direct_message user_id text) in
  fst (http open_request (net_world s)) = inr (PDict opened) ->
  Py.truthy (ok_flag opened) = true ->
  Py.dict_get opened (u "channel") = None ->
  send_slack_direct_message rt http slack_token user_id text s
  = (inr (PDict [ (u "success", PBool false);
                  (u "error",
                    PStr (u "다이렉트 메시지 전송 실패: " ++ u "'channel'")) ]),
     {| net_world := snd (http open_request (net_world s));
        net_sent := net_sent s ++ [open_request] |}).
Proof.
  intros open_request Hopen Hok Hmissing.
  unfold send_slack_direct_message, try_except, bind, lift,
    send_direct_message, open_dm_channel, bind, lift.
  rewrite make_request_step.
  subst open_request. cbn [first_request] in Hopen.
  rewrite Hopen, Hok.
  cbn [Py.getitem ebind]. rewrite Hmissing. reflexivity.
Qed.

Lemma direct_message_without_channel_witness :
  send_slack_direct_message ascii_runtime
    (canned (PDict [ (u "ok", PBool true) ]))
    (u "xoxb-token") (u "U7") (u "hi") start
  = (inr (PDict [ (u "success", PBool false);
                  (u "error",
                    PStr (u "다이렉트 메시지 전송 실패: " ++ u "'channel'")) ]),
     {| net_world :=
          snd (canned (PDict [ (u "ok", PBool true) ])
                 (first_request (u "xoxb-token")
                    (Call_send_slack_direct_message (u "U7") (u "hi")))
                 (net_world start));
        net_sent :=
          net_sent start
          ++ [first_request (u "xoxb-token")
                (Call_send_slack_direct_message (u "U7") (u "hi"))] |}).
Proof.
  apply (direct_message_without_channel ascii_runtime unit
           (canned (PDict [ (u "ok", PBool true) ]))
           (u "xoxb-token") (u "U7") (u "hi") start
           [ (u "ok", PBool true) ]); reflexivity.
Defined.

(** X25.  An accepted answer that lacks the list the caller is after is
    read as an empty list, not as an error: the channel, history and user
    tools return a success with no items and a count of 0, and the word
    report is a success with no words. *)
Theorem missing_list_reads_as_empty
    (rt : runtime) (world : Type)
    (http : request -> world -> exc pyval * world)
    (slack_token channel_id : pystr) (limit top_n : Z) (s : net world)
    (body : list (pystr * pyval)) :
  (forall req, fst (http req (net_world s)) = inr (PDict body)) ->
  Py.truthy (ok_flag body) = true ->
  Py.dict_get body (u "channels") = None ->
  Py.dict_get body (u "messages") = None ->
  Py.dict_get body (u "members") = None ->
  fst (get_slack_channels rt http slack_token s)
    = inr (PDict [ (u "success", PBool true);
                   (u "channels", PList []);
                   (u "total_count", PInt 0) ])
  /\ fst (get_slack_channel_history rt http slack_token channel_id limit s)
     = inr (PDict [ (u "success", PBool true);
                    (u "messages", PList []);
                    (u "channel_id", PStr channel_id);
                    (u "message_count", PInt 0) ])
  /\ fst (get_slack_users rt http slack_token s)
     = inr (PDict [ (u "success", PBool true);
                    (u "users", PList []);
                    (u "total_count", PInt 0) ])
  /\ fst (get_top_words_in_channel rt http (slack_client slack_token)
            channel_id top_n limit s)
     = inr (PDict
         [ (u "success", PBool true);
           (u "channel_id", PStr channel_id);
           (u "analysis_stats",
             PDict [ (u "total_words_analyzed", PInt 0);
                     (u "unique_words", PInt 0);
                     (u "message_limit", PInt limit) ]);
           (u "top_words", PList []) ]).
Proof.
  intros Hanswer Hok Hchannels Hmessages Hmembers.
  repeat split.
  - unfold get_slack_channels, try_except, bind, lift, get_channels, bind, lift.
    rewrite make_request_step, Hanswer, Hok.
    cbn [Py.get eret]. rewrite Hchannels. reflexivity.
  - unfold get_slack_channel_history, try_except, bind, lift,
      get_channel_history, bind, lift.
    rewrite make_request_step, Hanswer, Hok.
    cbn [Py.get eret]. rewrite Hmessages. reflexivity.
  - unfold get_slack_users, try_except, bind, lift, get_users, bind, lift.
    rewrite make_request_step, Hanswer, Hok.
    cbn [Py.get eret]. rewrite Hmembers. reflexivity.
  - unfold get_top_words_in_channel, try_except, bind, lift,
      analyze_channel_word_frequency, bind, lift,
      get_channel_history, bind, lift.
    rewrite make_request_step, Hanswer, Hok.
    cbn [Py.get eret]. rewrite Hmessages.
    change (word_frequency_of rt (PList []))
      with (@inr pyexc (list (pystr * Z)) []).
    unfold top_words_report, Py.slice_to.
    destruct (top_n <? 0); rewrite firstn_nil; reflexivity.
Qed.

Lemma missing_list_reads_as_empty_witness :
  fst (get_slack_users ascii_runtime (canned (PDict [ (u "ok", PBool true) ]))
         (u "xoxb-token") start)
  = inr (PDict [ (u "success", PBool true);
                 (u "users", PList []);
                 (u "total_count", PInt 0) ]).
Proof.
  apply (missing_list_reads_as_empty ascii_runtime unit
           (canned (PDict [ (u "ok", PBool true) ]))
           (u "xoxb-token") (u "C1") 10 10 start [ (u "ok", PBool true) ]);
    reflexivity.
Defined.

(* ================================================================== *)
(** ** The characters of extracted words *)
(* ================================================================== *)

Section WordCharFacts.

Variable rt : runtime.

Lemma collapse_from_In (text : pystr) (c : char) :
  forall in_run,
    In c (collapse_from (rt_ucd rt) in_run text) -> c = cp " " \/ In c text.
Proof.
  induction text as [|x rest IH]; intros in_run; [contradiction|].
  cbn [collapse_from]. destruct (isspace (rt_ucd rt) x).
  - destruct in_run.
    + intros H. destruct (IH true H); [now left | right; now right].
    + intros [<- | H]; [now left|].
      destruct (IH true H); [now left | right; now right].
  - intros [<- | H]; [right; now left|].
    destruct (IH false H); [now left | right; now right].
Qed.

(** A character of a word [split] returns is a character of the text and
    is not whitespace. *)
Lemma split_word_chars (s : pystr) (w : pystr) (c : char) :
  In w (split (rt_ucd rt) s) -> In c w ->
  In c s /\ isspace (rt_ucd rt) c = false.
Proof.
  intros Hw Hc.
  assert (Hin : In c (List.concat (split (rt_ucd rt) s))).
  { apply in_concat. now exists w. }
  unfold split in Hin. rewrite split_from_concat in Hin. simpl in Hin.
  apply filter_In in Hin as [Hin Hspace].
  split; [exact Hin|]. now apply negb_true_iff.
Qed.

Lemma kept_ascii_lowered (x : char) :
  is_ascii x = true ->
  kept_by_pattern rt x = true \/ x = cp " " ->
  isspace (rt_ucd rt) (ascii_lower x) = false ->
  ascii_word_char (ascii_lower x) = true.
Proof.
  intros Hx Hkept Hspace.
  pose proof (ascii_cases
    (fun x => negb (kept_by_pattern rt x || (x =? cp " ")%N)
              || isspace (rt_ucd rt) (ascii_lower x)
              || ascii_word_char (ascii_lower x))
    ltac:(vm_compute; reflexivity) x Hx) as H.
  cbv beta in H. rewrite Hspace in H.
  replace (kept_by_pattern rt x || (x =? cp " ")%N) with true in H.
  - exact H.
  - symmetry. destruct Hkept as [-> | ->]; [reflexivity|].
    apply orb_true_r.
Qed.

End WordCharFacts.

(** X26.  From a text of ASCII characters only words made of lower-case
    letters, digits and underscores come out: no punctuation, no upper-case
    letter and no control character survives. *)
Theorem ascii_words_are_plain (rt : runtime) (text : pystr)
    (words : list pystr) :
  Forall (fun c => is_ascii c = true) text ->
  _extract_words_from_text rt (PStr text) = inr words ->
  Forall (fun w => Forall (fun c => ascii_word_char c = true) w) words.
Proof.
  intros Hascii Hwords.
  unfold _extract_words_from_text in Hwords.
  destruct (negb (Py.truthy (PStr text))).
  { injection Hwords as <-. constructor. }
  injection Hwords as <-.
  set (f := fun c => if kept_by_pattern rt c then c else cp " ") in *.
  assert (Hf : forall x, In x (map f text) ->
                 is_ascii x = true
                 /\ (kept_by_pattern rt x = true \/ x = cp " ")).
  { intros x Hx. apply in_map_iff in Hx as (c & <- & Hc).
    rewrite Forall_forall in Hascii. specialize (Hascii c Hc).
    unfold f. destruct (kept_by_pattern rt c) eqn:E.
    - split; [exact Hascii | now left].
    - split; [reflexivity | now right]. }
  assert (Hcollapsed : forall x,
            In x (collapse_whitespace (rt_ucd rt) (map f text)) ->
            is_ascii x = true
            /\ (kept_by_pattern rt x = true \/ x = cp " ")).
  { intros x Hx. apply collapse_from_In in Hx as [-> | Hx].
    - split; [reflexivity | now right].
    - now apply Hf. }
  assert (Hlower : lower (rt_ucd rt)
                     (collapse_whitespace (rt_ucd rt) (map f text))
                   = map ascii_lower
                       (collapse_whitespace (rt_ucd rt) (map f text))).
  { apply lower_of_ascii. apply Forall_forall. intros x Hx.
    now apply Hcollapsed. }
  rewrite Hlower.
  apply Forall_forall. intros w Hw. apply filter_In in Hw as [Hw _].
  apply Forall_forall. intros c Hc.
  destruct (split_word_chars rt _ w c Hw Hc) as [Hin Hspace].
  apply in_map_iff in Hin as (x & <- & Hx).
  destruct (Hcollapsed x Hx) as [Hxa Hxk].
  now apply (kept_ascii_lowered rt x).
Qed.

Lemma ascii_words_are_plain_witness :
  Forall (fun w => Forall (fun c => ascii_word_char c = true) w)
         [u "deploy_v2"; u "done"; u "see"; u "http"; u "ci"; u "example"; u "run"; u "id"; u "42"].
Proof.
  apply (ascii_words_are_plain ascii_runtime
           (u "Deploy_v2 DONE!! (see http://ci.example/run?id=42)")).
  - apply Forall_forall. intros c Hc.
    apply (proj1 (forallb_forall is_ascii
                    (u "Deploy_v2 DONE!! (see http://ci.example/run?id=42)"))
             eq_refl c Hc).
  - reflexivity.
Defined.

(* ================================================================== *)
(** ** The tokenizer against the specification's wording *)
(* ================================================================== *)

Section SpecTokenizerFacts.

Variable rt : runtime.

Lemma spec_whitespace_isspace (c : char) :
  spec_whitespace rt c = isspace (rt_ucd rt) c.
Proof.
  destruct (is_ascii c) eqn:Hc.
  - apply Bool.eqb_prop.
    apply (ascii_cases
             (fun c => Bool.eqb (spec_whitespace rt c) (isspace (rt_ucd rt) c))
             ltac:(vm_compute; reflexivity) c Hc).
  - unfold spec_whitespace, isspace, is_ascii in *.
    rewrite Hc. reflexivity.
Qed.

Lemma spec_alphanumeric_isalnum (c : char) :
  spec_alphanumeric rt c = isalnum (rt_ucd rt) c.
Proof.
  destruct (is_ascii c) eqn:Hc.
  - apply Bool.eqb_prop.
    apply (ascii_cases
             (fun c => Bool.eqb (spec_alphanumeric rt c) (isalnum (rt_ucd rt) c))
             ltac:(vm_compute; reflexivity) c Hc).
  - unfold spec_alphanumeric, isalnum, is_ascii in *.
    rewrite Hc. reflexivity.
Qed.

Lemma spec_replace_token_char (c : char) :
  spec_replace rt c = if spec_is_token_char rt c then c else 32%N.
Proof.
  unfold spec_replace, spec_is_token_char.
  rewrite spec_alphanumeric_isalnum. reflexivity.
Qed.

Lemma spec_lower_char_ascii_lower (c : char) :
  is_ascii c = true -> spec_lower_char c = ascii_lower c.
Proof.
  intros Hc. apply N.eqb_eq.
  apply (ascii_cases (fun c => (spec_lower_char c =? ascii_lower c)%N)
           ltac:(vm_compute; reflexivity) c Hc).
Qed.

Lemma spec_lower_lower (text : pystr) :
  spec_lower rt text = lower (rt_ucd rt) text.
Proof.
  unfold spec_lower, lower.
  change (forallb (fun c => (c <? 128)%N) text) with (forallb is_ascii text).
  destruct (forallb is_ascii text) eqn:Hall; [|reflexivity].
  apply map_ext_in. intros c Hc.
  apply spec_lower_char_ascii_lower.
  rewrite forallb_forall in Hall. now apply Hall.
Qed.

Lemma spec_collapse_cons (c : char) (rest : pystr) :
  spec_collapse rt (c :: rest)
  = if isspace (rt_ucd rt) c
    then if head_is_space rt rest then spec_collapse rt rest
         else 32%N :: spec_collapse rt rest
    else c :: spec_collapse rt rest.
Proof.
  rewrite <- spec_whitespace_isspace.
  destruct rest as [|c' r]; [reflexivity|].
  unfold head_is_space. rewrite <- spec_whitespace_isspace. reflexivity.
Qed.

Lemma spec_collapse_head (text : pystr) :
  head_is_space rt text = true ->
  exists rest, spec_collapse rt text = 32%N :: rest.
Proof.
  induction text as [|c rest IH]; [discriminate|].
  intros Hc. rewrite spec_collapse_cons.
  cbn [head_is_space] in Hc. rewrite Hc.
  destruct (head_is_space rt rest) eqn:Hrest.
  - now apply IH.
  - eexists. reflexivity.
Qed.

(** The look-ahead reading of "collapse" and the code's run flag give the
    same text; inside a run the code has already produced the space. *)
Lemma spec_collapse_collapse_from (text : pystr) :
  collapse_from (rt_ucd rt) false text = spec_collapse rt text
  /\ collapse_from (rt_ucd rt) true text
     = if head_is_space rt text then tl (spec_collapse rt text)
       else spec_collapse rt text.
Proof.
  induction text as [|c rest [IHfalse IHtrue]]; [split; reflexivity|].
  rewrite spec_collapse_cons. cbn [collapse_from head_is_space].
  destruct (isspace (rt_ucd rt) c) eqn:Ec.
  - rewrite IHtrue. destruct (head_is_space rt rest) eqn:Hrest.
    + destruct (spec_collapse_head rest Hrest) as (t & Ht).
      rewrite Ht. split; reflexivity.
    + split; reflexivity.
  - rewrite IHfalse. split; reflexivity.
Qed.

Lemma filter_prepend_nil (fields : list pystr) :
  filter spec_nonempty (prepend [] fields) = filter spec_nonempty fields.
Proof. destruct fields as [|w ws]; reflexivity. Qed.

Lemma spec_nonempty_rev (cur : pystr) :
  spec_nonempty (rev cur) = spec_nonempty cur.
Proof.
  destruct cur as [|x cur']; [reflexivity|].
  simpl. destruct (rev cur'); reflexivity.
Qed.

(** Cutting at every whitespace character and dropping the empty pieces is
    what the code's scan with a current word returns. *)
Lemma split_from_fields (text cur : pystr) :
  split_from (rt_ucd rt) cur text
  = filter spec_nonempty (prepend (rev cur) (spec_fields rt text)).
Proof.
  revert cur. induction text as [|c rest IH]; intros cur.
  - cbn [split_from spec_fields fold_right prepend filter].
    rewrite spec_nonempty_rev. destruct cur; reflexivity.
  - cbn [split_from spec_fields fold_right]. fold (spec_fields rt rest).
    unfold spec_field_step. rewrite spec_whitespace_isspace.
    destruct (isspace (rt_ucd rt) c).
    + cbn [prepend filter]. rewrite app_nil_r, spec_nonempty_rev.
      rewrite (IH []). cbn [rev]. rewrite filter_prepend_nil.
      destruct cur; reflexivity.
    + rewrite (IH (c :: cur)). cbn [rev].
      destruct (spec_fields rt rest) as [|w ws]; cbn [prepend].
      * reflexivity.
      * rewrite <- app_assoc. reflexivity.
Qed.

Lemma spec_split_split (text : pystr) :
  spec_split rt text = split (rt_ucd rt) text.
Proof.
  unfold spec_split, split. rewrite split_from_fields.
  cbn [rev]. rewrite filter_prepend_nil. reflexivity.
Qed.

Lemma spec_words_tokenize (text : pystr) :
  spec_words rt text = spec_tokenize rt text.
Proof.
  unfold spec_words, spec_tokenize, collapse_whitespace.
  rewrite spec_split_split, spec_lower_lower.
  rewrite <- (proj1 (spec_collapse_collapse_from _)).
  do 3 f_equal. apply map_ext. intros c. apply spec_replace_token_char.
Qed.

End SpecTokenizerFacts.

(** C4.  On every text the code does what the specification says, each
    step taken in the specification's own terms: after the two
    substitutions the text is the one obtained by replacing every character
    that is not alphanumeric, underscore or Hangul syllable with a space and
    collapsing whitespace runs to one space; and the words returned are the
    lower-cased text split on whitespace, passed through the stop-word and
    length filter. *)
Theorem tokenizer_matches_specification (rt : runtime) (text : pystr) :
  collapse_whitespace (rt_ucd rt)
    (map (fun c => if kept_by_pattern rt c then c else cp " ") text)
  = spec_collapse rt (map (spec_replace rt) text)
  /\ split (rt_ucd rt)
       (lower (rt_ucd rt)
          (collapse_whitespace (rt_ucd rt)
             (map (fun c => if kept_by_pattern rt c then c else cp " ") text)))
     = spec_split rt
         (spec_lower rt (spec_collapse rt (map (spec_replace rt) text)))
  /\ _extract_words_from_text rt (PStr text)
     = inr (filter keep_word (spec_words rt text)).
Proof.
  assert (Hsub :
    collapse_whitespace (rt_ucd rt)
      (map (fun c => if kept_by_pattern rt c then c else cp " ") text)
    = spec_collapse rt (map (spec_replace rt) text)).
  { rewrite substitutions_agree. unfold collapse_whitespace.
    rewrite (proj1 (spec_collapse_collapse_from rt _)).
    f_equal. apply map_ext. intros c. symmetry.
    apply spec_replace_token_char. }
  split; [exact Hsub|]. split.
  - rewrite Hsub, spec_split_split, spec_lower_lower. reflexivity.
  - rewrite extract_words_filter_tokens, spec_words_tokenize. reflexivity.
Qed.

Example spec_words_of_a_sentence (rt : runtime) :
  spec_words rt [9; 72; 101; 108; 108; 111; 44; 32; 32; 87; 79; 82; 76; 68;
                 33; 10; 97; 95; 98; 45; 120]%N
  = [u "hello"; u "world"; u "a_b"; u "x"].
Proof. reflexivity. Qed.

Example spec_collapse_of_runs (rt : runtime) :
  spec_collapse rt [9; 10; 97; 32; 32; 13; 98; 32]%N = [32; 97; 32; 98; 32]%N.
Proof. reflexivity. Qed.
